(** * Recipe API views: owner-scoped list queries and ownership stamping

    A shallow embedding of [app/recipe/views.py]: the two [get_queryset]
    methods ([RecipeViewSet], [BaseRecipeAttrViewSet]), the parameter
    parser [_params_to_ints], and [perform_create] / [perform_update].

    The views are written against Django's ORM, so the embedding has three
    layers:
    - [Py]: the Python built-ins the views call ([str.split], [int],
      [bool], truthiness of a query-string value);
    - [QS] and the [fetch] functions: lazy query sets (a description of
      the SELECT that [filter], [order_by] and [distinct] build up) and
      their evaluation over the tables;
    - the views themselves, in a state-and-exception monad [M] over the
      database, so that what a request reads and writes is explicit.

    Text is modelled by [string], whose characters are the code points
    below 256. *)

From Stdlib Require Import ZArith Ascii String List Sorted Permutation Lia.
From stdpp Require Import base decidable option list sorting strings gmap fin_maps.

Local Open Scope string_scope.
Local Open Scope Z_scope.
Local Open Scope list_scope.

(** ** Python built-ins *)

Inductive Exn : Type :=
  | ValueError       (* int() on text that is not an integer literal *)
  | IntegrityError.  (* a row without an owner handed to the database *)

Inductive Result (A : Type) : Type :=
  | Ok (a : A)
  | Raise (e : Exn).
Arguments Ok {A} a.
Arguments Raise {A} e.

Module Py.

(** [str.split(sep)] with a one-character separator: every occurrence
    of [sep] cuts, empty pieces are kept, and the empty text gives one
    empty piece. *)
Fixpoint split (sep : ascii) (s : string) : list string :=
  match s with
  | EmptyString => [EmptyString]
  | String c s' =>
      if Ascii.eqb c sep then EmptyString :: split sep s'
      else match split sep s' with
           | tok :: rest => String c tok :: rest
           | [] => [String c EmptyString]
           end
  end.

(** White space as [int] sees it, for code points below 256. *)
Definition isspace (c : ascii) : bool :=
  let n := N_of_ascii c in
  ((9 <=? n) && (n <=? 13) || (n =? 32) || (n =? 133) || (n =? 160))%N.

Definition digit (c : ascii) : option Z :=
  let n := N_of_ascii c in
  if ((48 <=? n) && (n <=? 57))%N then Some (Z.of_N n - 48) else None.

Fixpoint lstrip (s : string) : string :=
  match s with
  | String c s' => if isspace c then lstrip s' else s
  | EmptyString => EmptyString
  end.

(** Where the scanner of a decimal literal stands: a digit must come
    next (at the start and after an underscore), a digit has just been
    read, or only trailing white space may follow. *)
Inductive scan_state : Type := NeedDigit | AfterDigit | Trailing.

Fixpoint scan (acc : Z) (st : scan_state) (s : string) : option Z :=
  match s with
  | EmptyString =>
      match st with NeedDigit => None | _ => Some acc end
  | String c s' =>
      match st with
      | NeedDigit =>
          match digit c with
          | Some d => scan (10 * acc + d) AfterDigit s'
          | None => None
          end
      | AfterDigit =>
          match digit c with
          | Some d => scan (10 * acc + d) AfterDigit s'
          | None =>
              if Ascii.eqb c "_" then scan acc NeedDigit s'
              else if isspace c then scan acc Trailing s'
              else None
          end
      | Trailing => if isspace c then scan acc Trailing s' else None
      end
  end.

(** [int(text)] in base ten: surrounding white space, an optional
    sign, then digits, single underscores allowed between digits.  The
    interpreter's configurable cap on the number of digits of a literal
    is left out. *)
Definition parse_int (s : string) : option Z :=
  match lstrip s with
  | String "+" r => scan 0 NeedDigit r
  | String "-" r => Z.opp <$> scan 0 NeedDigit r
  | r => scan 0 NeedDigit r
  end.

(** The values that reach [int] in the views: a query-string value, or
    the integer default of [query_params.get]. *)
Inductive value : Type :=
  | Str (s : string)
  | Int (z : Z).

Definition int (v : value) : Result Z :=
  match v with
  | Int z => Ok z
  | Str s =>
      match parse_int s with
      | Some z => Ok z
      | None => Raise ValueError
      end
  end.

Definition bool (z : Z) : Datatypes.bool := negb (z =? 0).

(** [if v:] on the result of [query_params.get(key)]: [None] and the
    empty text are false; on the true branch [v] is a non-empty text. *)
Definition truthy (o : option string) : option string :=
  match o with
  | None => None
  | Some s => if String.eqb s EmptyString then None else Some s
  end.

(** [d.get(key, default)]. *)
Definition get_default (d : gmap string string) (key : string)
    (default : value) : value :=
  match d !! key with
  | Some s => Str s
  | None => default
  end.

End Py.

(** ** Tables *)

(** Modelled from the spec: [core/models.py] is not part of the sources
    at hand.  A Record (recipe) has a unique identifier and an owner; an
    Attribute (tag or ingredient) has an identifier, an owner and a
    display name.  The two many-to-many relationships are kept the way a
    relational store keeps them, as link tables, so the forward view
    (a recipe's tags) and the reverse view (a tag's recipes) read the
    same rows. *)
Record Recipe : Type := mkRecipe { recipe_id : Z; recipe_user : Z }.

(** Modelled from the spec: [core/models.py] is not part of the sources
    at hand.  Tags and ingredients have the same three fields. *)
Record Attr : Type := mkAttr { attr_id : Z; attr_user : Z; attr_name : string }.

(** Modelled from the spec: [core/models.py] is not part of the sources
    at hand.  One table per model and one link table per many-to-many
    relationship, each row of a link table a
    (recipe identifier, attribute identifier) pair. *)
Record DB : Type := mkDB {
  core_recipe : list Recipe;
  core_tag : list Attr;
  core_ingredient : list Attr;
  core_recipe_tags : list (Z * Z);
  core_recipe_ingredients : list (Z * Z)
}.

#[global] Instance Recipe_eq_dec : EqDecision Recipe.
Proof. solve_decision. Defined.

#[global] Instance Attr_eq_dec : EqDecision Attr.
Proof. solve_decision. Defined.

(** ** The monad of a request: database state and exceptions *)

Definition M (A : Type) : Type := DB → Result A * DB.

Definition ret {A} (a : A) : M A := λ db, (Ok a, db).

Definition raise {A} (e : Exn) : M A := λ db, (Raise e, db).

Definition bind {A B} (m : M A) (k : A → M B) : M B :=
  λ db, match m db with
        | (Ok a, db') => k a db'
        | (Raise e, db') => (Raise e, db')
        end.

Definition lift {A} (r : Result A) : M A := λ db, (r, db).

Definition select : M DB := λ db, (Ok db, db).

Definition commit (db' : DB) : M unit := λ _, (Ok tt, db').

Notation "'let!' x ':=' m 'in' k" := (bind m (λ x, k))
  (at level 10, x name, m at level 100, k at level 200).

(** [[f(x) for x in xs]]: left to right, the first exception ends it. *)
Fixpoint for_each {A B} (f : A → M B) (xs : list A) : M (list B) :=
  match xs with
  | [] => ret []
  | x :: xs' =>
      let! y := f x in
      let! ys := for_each f xs' in
      ret (y :: ys)
  end.

(** ** Lazy query sets *)

Module QS.

(** What [Model.objects.all()] and the chained calls describe: the
    table, the lookups of the [filter] calls in call order, the
    ordering of the last [order_by], and whether [distinct] was
    called.  Nothing is read until the query set is fetched. *)
Record t (T L O : Type) : Type := mk {
  model : T;
  lookups : list L;
  ordering : option O;
  is_distinct : bool
}.
Arguments mk {T L O}.
Arguments model {T L O}.
Arguments lookups {T L O}.
Arguments ordering {T L O}.
Arguments is_distinct {T L O}.

Definition all {T L O} (m : T) : t T L O := mk m [] None false.

Definition filter {T L O} (l : L) (q : t T L O) : t T L O :=
  mk (model q) (lookups q ++ [l]) (ordering q) (is_distinct q).

Definition order_by {T L O} (o : O) (q : t T L O) : t T L O :=
  mk (model q) (lookups q) (Some o) (is_distinct q).

Definition distinct {T L O} (q : t T L O) : t T L O :=
  mk (model q) (lookups q) (ordering q) true.

End QS.

Inductive RecipeLookup : Type :=
  | tags__id__in (ids : list Z)
  | ingredients__id__in (ids : list Z)
  | recipe__user (u : Z).

Inductive RecipeOrder : Type :=
  | recipe_by_id        (* "id" *)
  | recipe_by_id_desc.  (* "-id" *)

Inductive AttrModel : Type := Tag | Ingredient.

Inductive AttrLookup : Type :=
  | recipe__isnull (b : bool)
  | attr__user (u : Z).

Inductive AttrOrder : Type :=
  | attr_by_name        (* "name" *)
  | attr_by_name_desc.  (* "-name" *)

Abbreviation RecipeQuerySet := (QS.t unit RecipeLookup RecipeOrder).
Abbreviation AttrQuerySet := (QS.t AttrModel AttrLookup AttrOrder).

(** ** Fetching a query set *)

(** A lookup across a many-to-many relationship joins the link table:
    the row comes out once for every link that satisfies the lookup. *)
Definition join_recipe (links : list (Z * Z)) (ids : list Z)
    (rows : list Recipe) : list Recipe :=
  r ← rows; lnk ← links;
  if decide (lnk.1 = recipe_id r ∧ lnk.2 ∈ ids) then [r] else [].

Definition join_attr (links : list (Z * Z)) (rows : list Attr) : list Attr :=
  a ← rows; lnk ← links;
  if decide (lnk.2 = attr_id a) then [a] else [].

Definition unlinked_attr (links : list (Z * Z)) (rows : list Attr) : list Attr :=
  filter (λ a, attr_id a ∉ links.*2) rows.

Definition recipe_lookup (db : DB) (rows : list Recipe) (l : RecipeLookup)
    : list Recipe :=
  match l with
  | tags__id__in ids => join_recipe (core_recipe_tags db) ids rows
  | ingredients__id__in ids => join_recipe (core_recipe_ingredients db) ids rows
  | recipe__user u => filter (λ r, recipe_user r = u) rows
  end.

Definition attr_table (db : DB) (m : AttrModel) : list Attr :=
  match m with Tag => core_tag db | Ingredient => core_ingredient db end.

Definition attr_links (db : DB) (m : AttrModel) : list (Z * Z) :=
  match m with
  | Tag => core_recipe_tags db
  | Ingredient => core_recipe_ingredients db
  end.

Definition attr_lookup (db : DB) (m : AttrModel) (rows : list Attr)
    (l : AttrLookup) : list Attr :=
  match l with
  | recipe__isnull false => join_attr (attr_links db m) rows
  | recipe__isnull true => unlinked_attr (attr_links db m) rows
  | attr__user u => filter (λ a, attr_user a = u) rows
  end.

Definition recipe_before (o : RecipeOrder) : relation Recipe :=
  match o with
  | recipe_by_id => λ a b, recipe_id a ≤ recipe_id b
  | recipe_by_id_desc => λ a b, recipe_id b ≤ recipe_id a
  end.

Definition attr_before (o : AttrOrder) : relation Attr :=
  match o with
  | attr_by_name => λ a b, String.le (attr_name a) (attr_name b)
  | attr_by_name_desc => λ a b, String.le (attr_name b) (attr_name a)
  end.

#[global] Instance recipe_before_dec o : RelDecision (recipe_before o).
Proof. destruct o; intros a b; simpl; apply _. Defined.

#[global] Instance attr_before_dec o : RelDecision (attr_before o).
Proof. destruct o; intros a b; simpl; apply _. Defined.

(** SELECT DISTINCT ... ORDER BY: repeated rows are dropped first, then
    the rows are sorted on the ordering key. *)
Definition distinct_rows {A} `{EqDecision A} (d : bool) (rows : list A) : list A :=
  if d then remove_dups rows else rows.

Definition fetch_recipes (q : RecipeQuerySet) : M (list Recipe) :=
  let! db := select in
  let rows := foldl (recipe_lookup db) (core_recipe db) (QS.lookups q) in
  let rows := distinct_rows (QS.is_distinct q) rows in
  ret match QS.ordering q with
      | Some o => merge_sort (recipe_before o) rows
      | None => rows
      end.

Definition fetch_attrs (q : AttrQuerySet) : M (list Attr) :=
  let! db := select in
  let m := QS.model q in
  let rows := foldl (attr_lookup db m) (attr_table db m) (QS.lookups q) in
  let rows := distinct_rows (QS.is_distinct q) rows in
  ret match QS.ordering q with
      | Some o => merge_sort (attr_before o) rows
      | None => rows
      end.

(** ** Saving through a serializer *)

Inductive FieldValue : Type :=
  | FInt (z : Z)
  | FText (s : string)
  | FIds (ids : list Z).

(** A serializer after validation: the row it was built around, if any,
    and the validated request payload, keyed by field name. *)
Record Serializer : Type := mkSerializer {
  instance : option Recipe;
  validated_data : gmap string FieldValue
}.

(** The identifier the store gives the next new recipe: one past the
    largest in the table. *)
Definition next_id (db : DB) : Z :=
  1 + foldr Z.max 0 (recipe_id <$> core_recipe db).

Definition with_recipes (db : DB) (rows : list Recipe) : DB :=
  mkDB rows (core_tag db) (core_ingredient db)
       (core_recipe_tags db) (core_recipe_ingredients db).

(** [Model.save()] of a row that has its identifier: the rows with that
    identifier are overwritten, and the row is inserted when there is
    none. *)
Definition save_row (r : Recipe) : M Recipe :=
  let! db := select in
  let rows := core_recipe db in
  let rows' :=
    if decide (recipe_id r ∈ recipe_id <$> rows)
    then (λ r0, if decide (recipe_id r0 = recipe_id r) then r else r0) <$> rows
    else rows ++ [r] in
  let! _ := commit (with_recipes db rows') in
  ret r.

(** Modelled from the spec: [recipe/serializers.py] is not part of the
    sources at hand.  Creating stores a new Record whose owner is the
    [user] entry of the data handed over, under a fresh identifier; the
    store refuses a Record without an owner. *)
Definition create (data : gmap string FieldValue) : M Recipe :=
  match data !! "user" with
  | Some (FInt u) =>
      let! db := select in
      let r := mkRecipe (next_id db) u in
      let! _ := commit (with_recipes db (core_recipe db ++ [r])) in
      ret r
  | _ => raise IntegrityError
  end.

(** Modelled from the spec: [recipe/serializers.py] is not part of the
    sources at hand.  Updating sets on the Record the fields present in
    the data handed over (of which the owner is the one modelled) and
    saves it. *)
Definition update (inst : Recipe) (data : gmap string FieldValue) : M Recipe :=
  match data !! "user" with
  | Some (FInt u) => save_row (mkRecipe (recipe_id inst) u)
  | _ => save_row inst
  end.

(** [serializer.save] with keyword arguments: the keyword arguments are
    laid over the validated data (a key present in both takes the
    keyword's value), and the result goes to [update] when the
    serializer has an instance and to [create] when it has none. *)
Definition save (self : Serializer) (kwargs : gmap string FieldValue) : M Recipe :=
  let validated_data := kwargs ∪ validated_data self in
  match instance self with
  | Some inst => update inst validated_data
  | None => create validated_data
  end.

(** ** The views *)

Record Request : Type := mkRequest {
  user : Z;                           (* request.user, set by authentication *)
  query_params : gmap string string   (* request.query_params, as [get] reads it *)
}.

Module RecipeViewSet.

Definition queryset : RecipeQuerySet := QS.all tt.  (* Recipe.objects.all() *)

Definition _params_to_ints (qs : string) : M (list Z) :=
  for_each (λ str_id, lift (Py.int (Py.Str str_id))) (Py.split "," qs).

Definition get_queryset (request : Request) : M RecipeQuerySet :=
  let tags := query_params request !! "tags" in
  let ingredients := query_params request !! "ingredients" in
  let queryset := queryset in
  let! queryset :=
    match Py.truthy tags with
    | Some tags =>
        let! tag_ids := _params_to_ints tags in
        ret (QS.filter (tags__id__in tag_ids) queryset)
    | None => ret queryset
    end in
  let! queryset :=
    match Py.truthy ingredients with
    | Some ingredients =>
        let! ingredient_ids := _params_to_ints ingredients in
        ret (QS.filter (ingredients__id__in ingredient_ids) queryset)
    | None => ret queryset
    end in
  ret (QS.distinct
         (QS.order_by recipe_by_id_desc
            (QS.filter (recipe__user (user request)) queryset))).

(** The list action: the query set of [get_queryset] is fetched. *)
Definition list_action (request : Request) : M (list Recipe) :=
  let! queryset := get_queryset request in
  fetch_recipes queryset.

Definition perform_create (request : Request) (serializer : Serializer) : M unit :=
  let! _ := save serializer {[ "user" := FInt (user request) ]} in
  ret tt.

Definition perform_update (request : Request) (serializer : Serializer) : M unit :=
  let! _ := save serializer {[ "user" := FInt (user request) ]} in
  ret tt.

End RecipeViewSet.

Module BaseRecipeAttrViewSet.

(** The class attribute [queryset] that a subclass sets. *)
Record t : Type := mk { queryset : AttrQuerySet }.

Definition get_queryset (self : t) (request : Request) : M AttrQuerySet :=
  let! n := lift (Py.int (Py.get_default (query_params request)
                            "assigned_only" (Py.Int 0))) in
  let assigned_only := Py.bool n in
  let queryset := queryset self in
  let queryset :=
    if assigned_only then QS.filter (recipe__isnull false) queryset
    else queryset in
  ret (QS.distinct
         (QS.order_by attr_by_name_desc
            (QS.filter (attr__user (user request)) queryset))).

Definition list_action (self : t) (request : Request) : M (list Attr) :=
  let! queryset := get_queryset self request in
  fetch_attrs queryset.

End BaseRecipeAttrViewSet.

Definition TagViewSet : BaseRecipeAttrViewSet.t :=
  BaseRecipeAttrViewSet.mk (QS.all Tag).

Definition IngredientViewSet : BaseRecipeAttrViewSet.t :=
  BaseRecipeAttrViewSet.mk (QS.all Ingredient).

(** ** Vocabulary of the statements *)

(** The identifiers linked to a recipe, and the recipes linked to an
    attribute, read off a link table. *)
Definition linked_ids (links : list (Z * Z)) (rid : Z) : list Z :=
  (filter (λ lnk, lnk.1 = rid) links).*2.

Definition linked_recipes (links : list (Z * Z)) (aid : Z) : list Z :=
  (filter (λ lnk, lnk.2 = aid) links).*1.

Definition tag_ids_of (db : DB) (r : Recipe) : list Z :=
  linked_ids (core_recipe_tags db) (recipe_id r).

Definition ingredient_ids_of (db : DB) (r : Recipe) : list Z :=
  linked_ids (core_recipe_ingredients db) (recipe_id r).

Definition recipe_ids_of (db : DB) (m : AttrModel) (a : Attr) : list Z :=
  linked_recipes (attr_links db m) (attr_id a).

Definition intersects (xs ys : list Z) : Prop := ∃ x, x ∈ xs ∧ x ∈ ys.

(** What it takes for a row to pass one lookup. *)
Definition recipe_passes (db : DB) (r : Recipe) (l : RecipeLookup) : Prop :=
  match l with
  | tags__id__in ids => intersects (tag_ids_of db r) ids
  | ingredients__id__in ids => intersects (ingredient_ids_of db r) ids
  | recipe__user u => recipe_user r = u
  end.

Definition attr_passes (db : DB) (m : AttrModel) (a : Attr) (l : AttrLookup) : Prop :=
  match l with
  | recipe__isnull false => recipe_ids_of db m a ≠ []
  | recipe__isnull true => recipe_ids_of db m a = []
  | attr__user u => attr_user a = u
  end.

(** The view of an attribute model. *)
Definition attr_view (m : AttrModel) : BaseRecipeAttrViewSet.t :=
  match m with Tag => TagViewSet | Ingredient => IngredientViewSet end.

(** The query sets that [get_queryset] resolves a request to. *)
Definition lookup_if (mk : list Z → RecipeLookup) (o : option (list Z))
    : list RecipeLookup :=
  match o with Some ids => [mk ids] | None => [] end.

Definition recipe_query (tag_ids ingredient_ids : option (list Z)) (u : Z)
    : RecipeQuerySet :=
  QS.mk tt
    (lookup_if tags__id__in tag_ids
       ++ lookup_if ingredients__id__in ingredient_ids ++ [recipe__user u])
    (Some recipe_by_id_desc) true.

Definition attr_query (self : BaseRecipeAttrViewSet.t) (assigned_only : bool)
    (u : Z) : AttrQuerySet :=
  let base := BaseRecipeAttrViewSet.queryset self in
  QS.mk (QS.model base)
    (QS.lookups base
       ++ (if assigned_only then [recipe__isnull false] else []) ++ [attr__user u])
    (Some attr_by_name_desc) true.

(** How a query-string value reads as a filter: no filter when absent or
    empty, otherwise the identifiers it parses to. *)
Definition reads_as (param : option string) (ids : option (list Z)) : Prop :=
  match Py.truthy param with
  | None => ids = None
  | Some s => ∃ l, ids = Some l ∧ mapM Py.parse_int (Py.split "," s) = Some l
  end.

Definition wanted (ids : option (list Z)) (have : list Z) : Prop :=
  match ids with Some l => intersects have l | None => True end.

(** The request with one query parameter taken out. *)
Definition without (key : string) (req : Request) : Request :=
  mkRequest (user req) (delete key (query_params req)).

(** The request with one query parameter set. *)
Definition with_param (key value : string) (req : Request) : Request :=
  mkRequest (user req) (<[key := value]> (query_params req)).

(** A small database and request for the examples: owner 100 has the
    recipes 1, 2 and 4, owner 200 has recipe 3. *)
Definition sample_db : DB :=
  mkDB [mkRecipe 1 100; mkRecipe 2 100; mkRecipe 3 200; mkRecipe 4 100]
       [mkAttr 8 100 "vegan"; mkAttr 9 100 "dessert"; mkAttr 10 100 "soup";
        mkAttr 11 200 "stew"; mkAttr 12 100 "unused"]
       [mkAttr 20 100 "salt"; mkAttr 21 100 "kale"; mkAttr 22 200 "rice"]
       [(1, 8); (1, 9); (2, 9); (2, 10); (3, 8); (4, 10)]
       [(1, 20); (2, 21); (3, 22); (4, 20)].

Definition sample_request (params : list (string * string)) : Request :=
  mkRequest 100 (list_to_map params).

(** ** Further methods of the recipe view: serializer choice and image upload *)

Module RecipeActions.

Inductive SerializerClass : Type :=
  | RecipeSerializer
  | RecipeDetailSerializer
  | RecipeImageSerializer.

Definition serializer_class : SerializerClass := RecipeDetailSerializer.

(** The view while it handles a request: the request, the name of the
    action being run ([None] when the method maps to no action), and the
    [pk] piece of the URL. *)
Record t : Type := mk {
  request : Request;
  action : option string;
  pk : string
}.

Definition get_serializer_class (self : t) : SerializerClass :=
  if decide (action self = Some "list") then RecipeSerializer
  else if decide (action self = Some "upload_image") then RecipeImageSerializer
  else serializer_class.

(** What can end a detail request besides the exceptions of the list
    path: the lookup finds no row, or more than one. *)
Inductive Raised : Type :=
  | Uncaught (e : Exn)
  | Http404
  | MultipleObjectsReturned.

Inductive Outcome (A : Type) : Type :=
  | Done (a : A)
  | Fail (x : Raised).
Arguments Done {A} a.
Arguments Fail {A} x.

(** [self.get_object()]: the row of [get_queryset] whose identifier is
    the [pk] of the URL.  A [pk] that is not an integer literal and a
    lookup without a row both give [Http404]; the exceptions of
    [get_queryset] pass through. *)
Definition get_object (self : t) : DB → Outcome Recipe * DB :=
  λ db,
    match RecipeViewSet.get_queryset (request self) db with
    | (Raise e, db) => (Fail (Uncaught e), db)
    | (Ok queryset, db) =>
        match Py.parse_int (pk self) with
        | None => (Fail Http404, db)
        | Some id =>
            match fetch_recipes queryset db with
            | (Raise e, db) => (Fail (Uncaught e), db)
            | (Ok rows, db) =>
                match filter (λ r, recipe_id r = id) rows with
                | [] => (Fail Http404, db)
                | [obj] => (Done obj, db)
                | _ => (Fail MultipleObjectsReturned, db)
                end
            end
        end
    end.

Record Response (Repr Errors : Type) : Type := mkResponse {
  data : Repr + Errors;
  status : Z
}.
Arguments mkResponse {Repr Errors}.
Arguments data {Repr Errors}.
Arguments status {Repr Errors}.

Definition HTTP_200_OK : Z := 200.
Definition HTTP_400_BAD_REQUEST : Z := 400.

Section serializers.

(** The serializer classes are not part of the sources at hand; the
    view is taken over any validation (the errors, or the validated
    data) and any rendering of a saved recipe. *)
Context {Payload Repr Errors : Type}.
Context (run_validation :
           SerializerClass → Recipe → Payload → Errors + gmap string FieldValue).
Context (to_representation : SerializerClass → Recipe → Repr).

Definition upload_image (self : t) (payload : Payload)
    : DB → Outcome (Response Repr Errors) * DB :=
  λ db,
    match get_object self db with
    | (Fail x, db) => (Fail x, db)
    | (Done recipe, db) =>
        let cls := get_serializer_class self in
        match run_validation cls recipe payload with
        | inr validated =>
            match save (mkSerializer (Some recipe) validated) ∅ db with
            | (Ok saved, db) =>
                (Done (mkResponse (inl (to_representation cls saved)) HTTP_200_OK), db)
            | (Raise e, db) => (Fail (Uncaught e), db)
            end
        | inl errors => (Done (mkResponse (inr errors) HTTP_400_BAD_REQUEST), db)
        end
    end.

End serializers.

End RecipeActions.

(** A validation and a rendering for the examples: a payload is valid
    when it is [true], carries no field, and a recipe renders as its
    identifier. *)
Definition sample_validation (cls : RecipeActions.SerializerClass) (r : Recipe)
    (payload : bool) : unit + gmap string FieldValue :=
  if payload then inr ∅ else inl tt.

Definition sample_rendering (cls : RecipeActions.SerializerClass) (r : Recipe) : Z :=
  recipe_id r.

(** ** How a failure is answered *)

(** The framework's exception handler
    ([rest_framework.views.exception_handler]), which the views leave in
    place: [Http404] is answered with status 404; an exception that is
    not one of the framework's own, such as the [ValueError] of [int],
    is not answered at all, it is raised again and the request ends as a
    server error. *)
Definition exception_handler (x : RecipeActions.Raised) : option Z :=
  match x with
  | RecipeActions.Http404 => Some 404
  | RecipeActions.Uncaught _ => None
  | RecipeActions.MultipleObjectsReturned => None
  end.

(** After the specification (sections 4.1 and 7): a request fails with
    InvalidFilterFormat when it is rejected, that is, ends in an
    exception that is answered with a client-error status. *)
Definition fails_with_InvalidFilterFormat {A} (out : Result A * DB) : Prop :=
  ∃ e status,
    out.1 = Raise e
    ∧ exception_handler (RecipeActions.Uncaught e) = Some status
    ∧ 400 ≤ status < 500.

(** Closed statements about the sample data hold by evaluation. *)
Ltac by_evaluation := vm_compute; reflexivity.

(** ** Link tables and joins *)

Section links.
Context (links : list (Z * Z)).

Lemma elem_of_linked_ids rid x : x ∈ linked_ids links rid ↔ (rid, x) ∈ links.
Proof.
  unfold linked_ids. rewrite list_elem_of_fmap. split.
  - intros [[a b] [-> [Ha Hin]%list_elem_of_filter]]. simpl in *. by subst.
  - intros Hin. exists (rid, x). split; [done|].
    by apply list_elem_of_filter.
Qed.

Lemma elem_of_linked_recipes aid x : x ∈ linked_recipes links aid ↔ (x, aid) ∈ links.
Proof.
  unfold linked_recipes. rewrite list_elem_of_fmap. split.
  - intros [[a b] [-> [Ha Hin]%list_elem_of_filter]]. simpl in *. by subst.
  - intros Hin. exists (x, aid). split; [done|].
    by apply list_elem_of_filter.
Qed.

Lemma linked_recipes_nonempty aid :
  linked_recipes links aid ≠ [] ↔ ∃ rid, (rid, aid) ∈ links.
Proof.
  split.
  - destruct (linked_recipes links aid) as [|x l] eqn:E; [done|].
    intros _. exists x. apply elem_of_linked_recipes. rewrite E. by left.
  - intros [rid H%elem_of_linked_recipes] E. rewrite E in H.
    by apply elem_of_nil in H.
Qed.

Lemma elem_of_join_recipe ids rows r :
  r ∈ join_recipe links ids rows ↔
  r ∈ rows ∧ intersects (linked_ids links (recipe_id r)) ids.
Proof.
  unfold join_recipe, intersects. rewrite list_elem_of_bind. split.
  - intros [r0 [[lnk [Hr Hlnk]]%list_elem_of_bind Hr0]].
    case_decide as Hd; [|by apply elem_of_nil in Hr].
    apply list_elem_of_singleton in Hr as ->. destruct Hd as [H1 H2].
    split; [done|]. exists lnk.2. split; [|done].
    apply elem_of_linked_ids. rewrite <- H1. by destruct lnk.
  - intros [Hr [x [Hx%elem_of_linked_ids Hids]]].
    exists r. split; [|done]. apply list_elem_of_bind.
    exists (recipe_id r, x). split; [|done].
    rewrite decide_True by done. by apply list_elem_of_singleton.
Qed.

Lemma elem_of_join_attr rows a :
  a ∈ join_attr links rows ↔ a ∈ rows ∧ linked_recipes links (attr_id a) ≠ [].
Proof.
  unfold join_attr. rewrite list_elem_of_bind, linked_recipes_nonempty. split.
  - intros [a0 [[lnk [Ha Hlnk]]%list_elem_of_bind Ha0]].
    case_decide as Hd; [|by apply elem_of_nil in Ha].
    apply list_elem_of_singleton in Ha as ->.
    split; [done|]. exists lnk.1. rewrite <- Hd. by destruct lnk.
  - intros [Ha [rid Hrid]].
    exists a. split; [|done]. apply list_elem_of_bind.
    exists (rid, attr_id a). split; [|done].
    rewrite decide_True by done. by apply list_elem_of_singleton.
Qed.

Lemma elem_of_unlinked_attr rows a :
  a ∈ unlinked_attr links rows ↔ a ∈ rows ∧ linked_recipes links (attr_id a) = [].
Proof.
  unfold unlinked_attr. rewrite list_elem_of_filter.
  assert (attr_id a ∉ links.*2 ↔ linked_recipes links (attr_id a) = []) as ->;
    [|tauto].
  split.
  - intros Hn. destruct (linked_recipes links (attr_id a)) as [|x l] eqn:E; [done|].
    exfalso. apply Hn. apply list_elem_of_fmap. exists (x, attr_id a).
    split; [done|]. apply elem_of_linked_recipes. rewrite E. by left.
  - intros E [[rid aid] [Heq Hin]]%list_elem_of_fmap. simpl in Heq. subst aid.
    apply elem_of_linked_recipes in Hin. rewrite E in Hin.
    by apply elem_of_nil in Hin.
Qed.

End links.

(** ** What a fetch returns *)

Lemma elem_of_recipe_lookup db rows l r :
  r ∈ recipe_lookup db rows l ↔ r ∈ rows ∧ recipe_passes db r l.
Proof.
  destruct l as [ids|ids|u]; simpl.
  - apply elem_of_join_recipe.
  - apply elem_of_join_recipe.
  - rewrite list_elem_of_filter. tauto.
Qed.

Lemma elem_of_attr_lookup db m rows l a :
  a ∈ attr_lookup db m rows l ↔ a ∈ rows ∧ attr_passes db m a l.
Proof.
  destruct l as [[|]|u]; simpl.
  - apply elem_of_unlinked_attr.
  - apply elem_of_join_attr.
  - rewrite list_elem_of_filter. tauto.
Qed.

Lemma elem_of_recipe_lookups db ls rows r :
  r ∈ foldl (recipe_lookup db) rows ls ↔ r ∈ rows ∧ Forall (recipe_passes db r) ls.
Proof.
  revert rows. induction ls as [|l ls IH]; intros rows; simpl.
  - rewrite Forall_nil. tauto.
  - rewrite IH, elem_of_recipe_lookup, Forall_cons. tauto.
Qed.

Lemma elem_of_attr_lookups db m ls rows a :
  a ∈ foldl (attr_lookup db m) rows ls ↔ a ∈ rows ∧ Forall (attr_passes db m a) ls.
Proof.
  revert rows. induction ls as [|l ls IH]; intros rows; simpl.
  - rewrite Forall_nil. tauto.
  - rewrite IH, elem_of_attr_lookup, Forall_cons. tauto.
Qed.

Lemma elem_of_distinct_rows {A} `{EqDecision A} d (rows : list A) x :
  x ∈ distinct_rows d rows ↔ x ∈ rows.
Proof. destruct d; simpl; [apply elem_of_remove_dups|done]. Qed.

#[global] Instance recipe_before_trans o : Transitive (recipe_before o).
Proof. destruct o; intros a b c; simpl; lia. Qed.

#[global] Instance recipe_before_total o : Total (recipe_before o).
Proof. destruct o; intros a b; simpl; lia. Qed.

#[global] Instance attr_before_trans o : Transitive (attr_before o).
Proof. destruct o; intros a b c; simpl; intros; by etrans. Qed.

#[global] Instance attr_before_total o : Total (attr_before o).
Proof. destruct o; intros a b; simpl; apply (total String.le). Qed.

(** Sorting on the ordering key keeps the rows and their multiplicity,
    so it commutes with every statement about membership and
    duplicates. *)
Lemma fetch_recipes_spec q db :
  ∃ rs, fetch_recipes q db = (Ok rs, db)
    ∧ (∀ r, r ∈ rs ↔ r ∈ core_recipe db ∧ Forall (recipe_passes db r) (QS.lookups q))
    ∧ (QS.is_distinct q = true → NoDup rs)
    ∧ (∀ o, QS.ordering q = Some o → StronglySorted (recipe_before o) rs).
Proof.
  unfold fetch_recipes, bind, select, ret.
  set (rows := distinct_rows _ _).
  assert (Hrows : ∀ r, r ∈ rows ↔
            r ∈ core_recipe db ∧ Forall (recipe_passes db r) (QS.lookups q)).
  { intros r. unfold rows. by rewrite elem_of_distinct_rows, elem_of_recipe_lookups. }
  assert (Hnd : QS.is_distinct q = true → NoDup rows).
  { intros Hd. unfold rows. rewrite Hd. apply NoDup_remove_dups. }
  eexists; split; [reflexivity|].
  destruct (QS.ordering q) as [o|].
  - split; [|split].
    + intros r. by rewrite merge_sort_Permutation.
    + intros Hd. rewrite merge_sort_Permutation. auto.
    + intros o' [= <-]. apply StronglySorted_merge_sort; apply _.
  - split; [done|]. split; [done|]. intros o' [=].
Qed.

Lemma fetch_attrs_spec q db :
  ∃ rs, fetch_attrs q db = (Ok rs, db)
    ∧ (∀ a, a ∈ rs ↔ a ∈ attr_table db (QS.model q)
                      ∧ Forall (attr_passes db (QS.model q) a) (QS.lookups q))
    ∧ (QS.is_distinct q = true → NoDup rs)
    ∧ (∀ o, QS.ordering q = Some o → StronglySorted (attr_before o) rs).
Proof.
  unfold fetch_attrs, bind, select, ret.
  set (rows := distinct_rows _ _).
  assert (Hrows : ∀ a, a ∈ rows ↔ a ∈ attr_table db (QS.model q)
            ∧ Forall (attr_passes db (QS.model q) a) (QS.lookups q)).
  { intros a. unfold rows. by rewrite elem_of_distinct_rows, elem_of_attr_lookups. }
  assert (Hnd : QS.is_distinct q = true → NoDup rows).
  { intros Hd. unfold rows. rewrite Hd. apply NoDup_remove_dups. }
  eexists; split; [reflexivity|].
  destruct (QS.ordering q) as [o|].
  - split; [|split].
    + intros a. by rewrite merge_sort_Permutation.
    + intros Hd. rewrite merge_sort_Permutation. auto.
    + intros o' [= <-]. apply StronglySorted_merge_sort; apply _.
  - split; [done|]. split; [done|]. intros o' [=].
Qed.

(** ** Parsing the identifier lists *)

(** The parser raises nothing but [ValueError], never touches the
    database, and succeeds exactly when every piece between commas is an
    integer literal. *)
Lemma for_each_int toks db :
  for_each (λ str_id, lift (Py.int (Py.Str str_id))) toks db =
  (match mapM Py.parse_int toks with
   | Some ids => Ok ids
   | None => Raise ValueError
   end, db).
Proof.
  induction toks as [|tok toks IH]; [done|].
  assert (Hint : ∀ t, Py.int (Py.Str t) =
            match Py.parse_int t with Some z => Ok z | None => Raise ValueError end)
    by done.
  cbn [for_each]. unfold bind at 1. unfold lift at 1. rewrite Hint.
  change (mapM Py.parse_int (tok :: toks))
    with (y ← Py.parse_int tok; k ← mapM Py.parse_int toks; Some (y :: k)).
  destruct (Py.parse_int tok) as [z|]; [|done].
  unfold bind. rewrite IH. cbn.
  by destruct (mapM Py.parse_int toks).
Qed.

Lemma params_to_ints_unfold s db :
  RecipeViewSet._params_to_ints s db =
  (match mapM Py.parse_int (Py.split "," s) with
   | Some ids => Ok ids
   | None => Raise ValueError
   end, db).
Proof. apply for_each_int. Qed.

Lemma params_to_ints_bad s tok db :
  tok ∈ Py.split "," s →
  Py.int (Py.Str tok) = Raise ValueError →
  RecipeViewSet._params_to_ints s db = (Raise ValueError, db).
Proof.
  intros Hin Hbad. rewrite params_to_ints_unfold.
  assert (mapM Py.parse_int (Py.split "," s) = None) as ->; [|done].
  apply mapM_None, Exists_exists. exists tok. split; [done|].
  simpl in Hbad. by destruct (Py.parse_int tok).
Qed.

Lemma params_to_ints_ok_inv s db ids db' :
  RecipeViewSet._params_to_ints s db = (Ok ids, db') →
  mapM Py.parse_int (Py.split "," s) = Some ids ∧ s ≠ "".
Proof.
  rewrite params_to_ints_unfold.
  destruct (mapM Py.parse_int (Py.split "," s)) as [l|] eqn:E; [|done].
  intros [= -> _]. split; [done|]. by intros ->.
Qed.

(** ** The query set a request is resolved to *)

Lemma recipe_get_queryset_ok req db tag_ids ingredient_ids :
  reads_as (query_params req !! "tags") tag_ids →
  reads_as (query_params req !! "ingredients") ingredient_ids →
  RecipeViewSet.get_queryset req db =
    (Ok (recipe_query tag_ids ingredient_ids (user req)), db).
Proof.
  unfold reads_as, RecipeViewSet.get_queryset. intros Ht Hi.
  unfold bind at 1.
  destruct (Py.truthy (query_params req !! "tags")) as [st|].
  - destruct Ht as (lt & -> & Ht). unfold bind at 1.
    rewrite params_to_ints_unfold, Ht. cbn [ret].
    unfold bind at 1.
    destruct (Py.truthy (query_params req !! "ingredients")) as [si|].
    + destruct Hi as (li & -> & Hi). unfold bind at 1.
      by rewrite params_to_ints_unfold, Hi.
    + by subst.
  - subst tag_ids. cbn [ret]. unfold bind at 1.
    destruct (Py.truthy (query_params req !! "ingredients")) as [si|].
    + destruct Hi as (li & -> & Hi). unfold bind at 1.
      by rewrite params_to_ints_unfold, Hi.
    + by subst.
Qed.

Lemma reads_as_or_bad (param : option string) :
  (∃ ids, reads_as param ids)
  ∨ (∃ s, Py.truthy param = Some s ∧ mapM Py.parse_int (Py.split "," s) = None).
Proof.
  unfold reads_as. destruct (Py.truthy param) as [s|]; [|by left; eexists].
  destruct (mapM Py.parse_int (Py.split "," s)) as [l|] eqn:E.
  - left. by exists (Some l), l.
  - right. by exists s.
Qed.

Lemma recipe_get_queryset_cases req db :
  RecipeViewSet.get_queryset req db = (Raise ValueError, db)
  ∨ ∃ tag_ids ingredient_ids,
      reads_as (query_params req !! "tags") tag_ids
      ∧ reads_as (query_params req !! "ingredients") ingredient_ids
      ∧ RecipeViewSet.get_queryset req db =
          (Ok (recipe_query tag_ids ingredient_ids (user req)), db).
Proof.
  destruct (reads_as_or_bad (query_params req !! "tags")) as [[t Ht]|(st & Ht & Hbad)].
  - destruct (reads_as_or_bad (query_params req !! "ingredients"))
      as [[i Hi]|(si & Hi & Hbad)].
    + right. exists t, i. eauto using recipe_get_queryset_ok.
    + left. unfold RecipeViewSet.get_queryset, reads_as in *.
      unfold bind at 1.
      destruct (Py.truthy (query_params req !! "tags")) as [st|].
      * destruct Ht as (lt & -> & Ht). unfold bind at 1.
        rewrite params_to_ints_unfold, Ht. cbn [ret].
        unfold bind at 1. rewrite Hi. unfold bind at 1.
        by rewrite params_to_ints_unfold, Hbad.
      * cbn [ret]. unfold bind at 1. rewrite Hi. unfold bind at 1.
        by rewrite params_to_ints_unfold, Hbad.
  - left. unfold RecipeViewSet.get_queryset.
    unfold bind at 1. rewrite Ht. unfold bind at 1.
    by rewrite params_to_ints_unfold, Hbad.
Qed.

Lemma recipe_query_passes db r tag_ids ingredient_ids u :
  Forall (recipe_passes db r) (QS.lookups (recipe_query tag_ids ingredient_ids u))
  ↔ recipe_user r = u
    ∧ wanted tag_ids (tag_ids_of db r)
    ∧ wanted ingredient_ids (ingredient_ids_of db r).
Proof.
  unfold recipe_query. cbn [QS.lookups].
  rewrite !Forall_app, Forall_singleton.
  destruct tag_ids, ingredient_ids; cbn [lookup_if wanted];
    rewrite ?Forall_singleton, ?Forall_nil; cbn [recipe_passes]; tauto.
Qed.

(** The list of recipes, for a request whose filters read well. *)
Lemma recipe_list_ok req db tag_ids ingredient_ids :
  reads_as (query_params req !! "tags") tag_ids →
  reads_as (query_params req !! "ingredients") ingredient_ids →
  ∃ rs, RecipeViewSet.list_action req db = (Ok rs, db)
    ∧ (∀ r, r ∈ rs ↔ r ∈ core_recipe db ∧ recipe_user r = user req
                      ∧ wanted tag_ids (tag_ids_of db r)
                      ∧ wanted ingredient_ids (ingredient_ids_of db r))
    ∧ NoDup rs
    ∧ StronglySorted (recipe_before recipe_by_id_desc) rs.
Proof.
  intros Ht Hi. unfold RecipeViewSet.list_action, bind.
  rewrite (recipe_get_queryset_ok _ _ _ _ Ht Hi).
  destruct (fetch_recipes_spec (recipe_query tag_ids ingredient_ids (user req)) db)
    as (rs & -> & Hin & Hnd & Hsort).
  exists rs. split; [done|]. split; [|split].
  - intros r. by rewrite Hin, recipe_query_passes.
  - by apply Hnd.
  - by apply Hsort.
Qed.

(** Every request for the list of recipes either raises [ValueError] or
    is one whose filters read well. *)
Lemma recipe_list_cases req db :
  RecipeViewSet.list_action req db = (Raise ValueError, db)
  ∨ ∃ tag_ids ingredient_ids,
      reads_as (query_params req !! "tags") tag_ids
      ∧ reads_as (query_params req !! "ingredients") ingredient_ids.
Proof.
  destruct (recipe_get_queryset_cases req db) as [Hbad|(t & i & Ht & Hi & _)].
  - left. unfold RecipeViewSet.list_action, bind. by rewrite Hbad.
  - right. eauto.
Qed.

(** ** The query set of an attribute request *)

Lemma attr_get_queryset_unfold self req db :
  BaseRecipeAttrViewSet.get_queryset self req db =
  (match Py.int (Py.get_default (query_params req) "assigned_only" (Py.Int 0)) with
   | Ok n => Ok (attr_query self (Py.bool n) (user req))
   | Raise e => Raise e
   end, db).
Proof.
  unfold BaseRecipeAttrViewSet.get_queryset, bind, lift, ret.
  destruct (Py.int _) as [n|e]; [|done].
  unfold attr_query, QS.distinct, QS.order_by, QS.filter.
  destruct (Py.bool n); cbn; [|done].
  by rewrite <- (assoc_L (++)).
Qed.

Lemma attr_list_unfold self req db :
  BaseRecipeAttrViewSet.list_action self req db =
  match Py.int (Py.get_default (query_params req) "assigned_only" (Py.Int 0)) with
  | Ok n => fetch_attrs (attr_query self (Py.bool n) (user req)) db
  | Raise e => (Raise e, db)
  end.
Proof.
  unfold BaseRecipeAttrViewSet.list_action, bind.
  rewrite attr_get_queryset_unfold. by destruct (Py.int _).
Qed.

Lemma attr_query_passes db self a assigned_only u :
  Forall (attr_passes db (QS.model (BaseRecipeAttrViewSet.queryset self)) a)
         (QS.lookups (attr_query self assigned_only u))
  ↔ Forall (attr_passes db (QS.model (BaseRecipeAttrViewSet.queryset self)) a)
           (QS.lookups (BaseRecipeAttrViewSet.queryset self))
    ∧ attr_user a = u
    ∧ (assigned_only = true →
       recipe_ids_of db (QS.model (BaseRecipeAttrViewSet.queryset self)) a ≠ []).
Proof.
  unfold attr_query. cbn [QS.lookups].
  rewrite !Forall_app, Forall_singleton.
  destruct assigned_only; rewrite ?Forall_singleton, ?Forall_nil;
    cbn [attr_passes]; intuition congruence.
Qed.

(** The list of attributes, for a request whose [assigned_only] value
    reads as the integer [n]. *)
Lemma attr_list_ok self req db n :
  Py.int (Py.get_default (query_params req) "assigned_only" (Py.Int 0)) = Ok n →
  let base := BaseRecipeAttrViewSet.queryset self in
  ∃ rs, BaseRecipeAttrViewSet.list_action self req db = (Ok rs, db)
    ∧ (∀ a, a ∈ rs ↔
         a ∈ attr_table db (QS.model base)
         ∧ Forall (attr_passes db (QS.model base) a) (QS.lookups base)
         ∧ attr_user a = user req
         ∧ (n ≠ 0 → recipe_ids_of db (QS.model base) a ≠ []))
    ∧ NoDup rs
    ∧ StronglySorted (attr_before attr_by_name_desc) rs.
Proof.
  intros Hn base. rewrite attr_list_unfold, Hn.
  destruct (fetch_attrs_spec (attr_query self (Py.bool n) (user req)) db)
    as (rs & -> & Hin & Hnd & Hsort).
  exists rs. split; [done|]. split; [|split].
  - intros a. rewrite Hin. cbn [attr_query QS.model].
    rewrite attr_query_passes. fold base.
    assert (Py.bool n = true ↔ n ≠ 0) as ->; [|tauto].
    unfold Py.bool. rewrite negb_true_iff. apply Z.eqb_neq.
  - by apply Hnd.
  - by apply Hsort.
Qed.

(** ** Requests that get a list *)

(** What holds of every list a request gets, whatever its parameters:
    the database is untouched, the rows are table rows of the requesting
    user, no row comes twice, and the order is the one asked for. *)
Lemma recipe_list_inv req db rs db' :
  RecipeViewSet.list_action req db = (Ok rs, db') →
  db' = db
  ∧ (∀ r, r ∈ rs → r ∈ core_recipe db ∧ recipe_user r = user req)
  ∧ NoDup rs
  ∧ StronglySorted (recipe_before recipe_by_id_desc) rs.
Proof.
  intros Hlist.
  destruct (recipe_list_cases req db) as [Hbad|(t & i & Ht & Hi)];
    [congruence|].
  destruct (recipe_list_ok req db t i Ht Hi) as (rs' & Heq & Hin & Hnd & Hsort).
  rewrite Heq in Hlist. simplify_eq. split_and!; [done| |done|done].
  intros r Hr. destruct (proj1 (Hin r) Hr) as (? & ? & _). done.
Qed.

Lemma attr_list_inv self req db rs db' :
  BaseRecipeAttrViewSet.list_action self req db = (Ok rs, db') →
  db' = db
  ∧ (∀ a, a ∈ rs →
       a ∈ attr_table db (QS.model (BaseRecipeAttrViewSet.queryset self))
       ∧ attr_user a = user req)
  ∧ NoDup rs
  ∧ StronglySorted (attr_before attr_by_name_desc) rs.
Proof.
  intros Hlist. rewrite attr_list_unfold in Hlist.
  destruct (Py.int _) as [n|e] eqn:Hn; [|done].
  destruct (attr_list_ok self req db n Hn) as (rs' & Heq & Hin & Hnd & Hsort).
  rewrite attr_list_unfold, Hn in Heq.
  rewrite Heq in Hlist. simplify_eq. split_and!; [done| |done|done].
  intros a Ha. destruct (proj1 (Hin a) Ha) as (? & _ & ? & _). done.
Qed.

(** ** Keys *)

(** Rows of a table whose identifiers are pairwise different are told
    apart by their identifier, and so are the rows of any selection from
    the table. *)
Lemma NoDup_fmap_selection {A} (f : A → Z) (table rs : list A) :
  NoDup (f <$> table) → (∀ x, x ∈ rs → x ∈ table) → NoDup rs → NoDup (f <$> rs).
Proof.
  intros Hkey Hsub Hnd. apply NoDup_fmap_2_strong; [|done].
  intros x y Hx%Hsub Hy%Hsub Hxy.
  clear Hsub Hnd. induction table as [|z table IH]; [by apply elem_of_nil in Hx|].
  rewrite fmap_cons in Hkey. apply NoDup_cons in Hkey as [Hz Hkey].
  apply elem_of_cons in Hx as [->|Hx]; apply elem_of_cons in Hy as [->|Hy].
  - done.
  - exfalso. apply Hz. rewrite Hxy. by apply list_elem_of_fmap_2.
  - exfalso. apply Hz. rewrite <- Hxy. by apply list_elem_of_fmap_2.
  - by apply IH.
Qed.

(** A list in descending order of a key that no two of its rows share
    is in strictly descending order, which leaves one possible order. *)
Lemma StronglySorted_strict {A} (f : A → Z) (l : list A) :
  NoDup (f <$> l) →
  StronglySorted (λ a b, f b ≤ f a) l →
  StronglySorted (λ a b, f b < f a) l.
Proof.
  intros Hnd Hs. induction Hs as [|a l Hs IH Hall]; [constructor|].
  rewrite fmap_cons in Hnd. apply NoDup_cons in Hnd as [Ha Hnd].
  constructor; [by apply IH|].
  apply Forall_forall. intros b Hb.
  assert (f b ≤ f a) by (by apply (proj1 (Forall_forall _ _) Hall)).
  assert (f b ≠ f a).
  { intros Heq. apply Ha. rewrite <- Heq. by apply list_elem_of_fmap_2. }
  lia.
Qed.

(** ** Truthiness of a query-string value *)

Lemma truthy_nonempty s : s ≠ "" → Py.truthy (Some s) = Some s.
Proof.
  intros Hs. unfold Py.truthy.
  destruct (String.eqb_spec s "") as [->|_]; [done|done].
Qed.

Lemma truthy_absent_or_empty (param : option string) :
  param = None ∨ param = Some "" → Py.truthy param = None.
Proof. by intros [->| ->]. Qed.

Lemma reads_as_parsed s db ids :
  RecipeViewSet._params_to_ints s db = (Ok ids, db) →
  reads_as (Some s) (Some ids).
Proof.
  intros [Hp Hs]%params_to_ints_ok_inv. unfold reads_as.
  rewrite truthy_nonempty by done. by exists ids.
Qed.

(** ** Owner scoping *)

(** C1: whatever the filter parameters, every recipe in the list a
    request gets is owned by the requesting user, and so is every tag or
    ingredient; this holds for every database and every attribute view. *)
Theorem list_returns_only_own_entities req db :
  (∀ rs db', RecipeViewSet.list_action req db = (Ok rs, db') →
     ∀ r, r ∈ rs → recipe_user r = user req)
  ∧ (∀ self rs db', BaseRecipeAttrViewSet.list_action self req db = (Ok rs, db') →
     ∀ a, a ∈ rs → attr_user a = user req).
Proof.
  split.
  - intros rs db' (_ & Hown & _)%recipe_list_inv r Hr. by apply Hown.
  - intros self rs db' (_ & Hown & _)%attr_list_inv a Ha. by apply Hown.
Qed.

Lemma list_returns_only_own_entities_witness :
  recipe_user (mkRecipe 2 100) = 100 ∧ attr_user (mkAttr 9 100 "dessert") = 100.
Proof.
  destruct (list_returns_only_own_entities
              (sample_request [("tags", "8,9"); ("assigned_only", "1")]) sample_db)
    as [Hr Ha].
  split.
  - eapply Hr; [by_evaluation|]. apply list_elem_of_In. simpl. tauto.
  - eapply (Ha TagViewSet); [by_evaluation|].
    apply list_elem_of_In. simpl. tauto.
Defined.

(** ** Malformed filters *)

(** C3, as the code has it: when the [tags] or the [ingredients] value
    is a non-empty text one of whose comma-separated pieces is not an
    integer literal, the request for the list of recipes ends in the
    [ValueError] of [int]: [get_queryset] itself raises, so no query set
    is built or fetched and no list, partial or unfiltered, is returned.
    The exception is not answered by the exception handler, so the
    failure is not the InvalidFilterFormat rejection. *)
Theorem malformed_filter_raises_value_error req db key s tok :
  key = "tags" ∨ key = "ingredients" →
  query_params req !! key = Some s →
  s ≠ "" →
  tok ∈ Py.split "," s →
  Py.int (Py.Str tok) = Raise ValueError →
  RecipeViewSet.get_queryset req db = (Raise ValueError, db)
  ∧ RecipeViewSet.list_action req db = (Raise ValueError, db)
  ∧ ¬ fails_with_InvalidFilterFormat (RecipeViewSet.list_action req db).
Proof.
  intros Hkey Hs Hne Htok Hbad.
  assert (Hq : RecipeViewSet.get_queryset req db = (Raise ValueError, db)).
  { destruct (recipe_get_queryset_cases req db)
      as [Hq|(t & i & Ht & Hi & _)]; [done|exfalso].
    pose proof (params_to_ints_bad s tok db Htok Hbad) as Hp.
    rewrite params_to_ints_unfold in Hp.
    assert (Hnone : mapM Py.parse_int (Py.split "," s) = None).
    { by destruct (mapM Py.parse_int (Py.split "," s)). }
    unfold reads_as in Ht, Hi.
    destruct Hkey as [-> | ->]; rewrite Hs, truthy_nonempty in * by done.
    - destruct Ht as (l & _ & Hl). congruence.
    - destruct Hi as (l & _ & Hl). congruence. }
  assert (Hl : RecipeViewSet.list_action req db = (Raise ValueError, db)).
  { unfold RecipeViewSet.list_action, bind. by rewrite Hq. }
  split_and!; [done|done|].
  rewrite Hl. by intros (e & status & _ & Hh & _).
Qed.

Lemma malformed_filter_raises_value_error_witness :
  RecipeViewSet.get_queryset (sample_request [("tags", "8,x")]) sample_db
    = (Raise ValueError, sample_db)
  ∧ RecipeViewSet.list_action (sample_request [("tags", "8,x")]) sample_db
    = (Raise ValueError, sample_db)
  ∧ ¬ fails_with_InvalidFilterFormat
        (RecipeViewSet.list_action (sample_request [("tags", "8,x")]) sample_db).
Proof.
  apply (malformed_filter_raises_value_error _ _ "tags" "8,x" "x").
  - by left.
  - by_evaluation.
  - discriminate.
  - apply list_elem_of_In. simpl. tauto.
  - reflexivity.
Defined.

(** C3, as it is written, fails at [tags=8,x]: the request for the list
    ends there in an exception, but not in one that is answered with a
    client-error status. *)
Lemma malformed_filter_is_not_a_rejection :
  ¬ fails_with_InvalidFilterFormat
      (RecipeViewSet.list_action (sample_request [("tags", "8,x")]) sample_db).
Proof.
  intros (e & status & He & Hh & _).
  vm_compute in He. injection He as <-. discriminate Hh.
Qed.

(** ** Combining the two filters *)

(** C4: when both filter texts are present and parse, a recipe of the
    requesting user is in the list exactly when one of its tag
    identifiers is among the parsed tag identifiers and one of its
    ingredient identifiers is among the parsed ingredient identifiers. *)
Theorem tags_and_ingredients_filters_conjoin
    req db tags ingredients tag_ids ingredient_ids :
  query_params req !! "tags" = Some tags →
  query_params req !! "ingredients" = Some ingredients →
  RecipeViewSet._params_to_ints tags db = (Ok tag_ids, db) →
  RecipeViewSet._params_to_ints ingredients db = (Ok ingredient_ids, db) →
  ∃ rs, RecipeViewSet.list_action req db = (Ok rs, db)
    ∧ ∀ r, r ∈ rs ↔
        (r ∈ core_recipe db ∧ recipe_user r = user req)
        ∧ intersects (tag_ids_of db r) tag_ids
        ∧ intersects (ingredient_ids_of db r) ingredient_ids.
Proof.
  intros Ht Hi Hpt Hpi.
  apply reads_as_parsed in Hpt, Hpi. rewrite <- Ht in Hpt. rewrite <- Hi in Hpi.
  destruct (recipe_list_ok req db _ _ Hpt Hpi) as (rs & Heq & Hin & _).
  exists rs. split; [done|]. intros r. rewrite Hin. simpl. tauto.
Qed.

Lemma tags_and_ingredients_filters_conjoin_witness :
  ∃ rs, RecipeViewSet.list_action
          (sample_request [("tags", "8,9"); ("ingredients", "21")]) sample_db
        = (Ok rs, sample_db)
    ∧ ∀ r, r ∈ rs ↔
        (r ∈ core_recipe sample_db ∧ recipe_user r = 100)
        ∧ intersects (tag_ids_of sample_db r) [8; 9]
        ∧ intersects (ingredient_ids_of sample_db r) [21].
Proof.
  apply (tags_and_ingredients_filters_conjoin
           (sample_request [("tags", "8,9"); ("ingredients", "21")])
           sample_db "8,9" "21" [8; 9] [21]);
    by_evaluation.
Defined.

(** ** Absent and empty filters *)

(** C5: the text "8,9" parses to the identifiers 8 and 9; a [tags] or
    [ingredients] value that is absent or empty filters nothing (the
    request is answered as if the parameter were not there), and with
    both absent or empty the list is exactly the requesting user's
    recipes. *)
Theorem absent_or_empty_filter_is_no_filter :
  (∀ db, RecipeViewSet._params_to_ints "8,9" db = (Ok [8; 9], db))
  ∧ (∀ req db key,
       key = "tags" ∨ key = "ingredients" →
       query_params req !! key = None ∨ query_params req !! key = Some "" →
       RecipeViewSet.list_action req db
         = RecipeViewSet.list_action (without key req) db)
  ∧ (∀ req db,
       query_params req !! "tags" = None
         ∨ query_params req !! "tags" = Some "" →
       query_params req !! "ingredients" = None
         ∨ query_params req !! "ingredients" = Some "" →
       ∃ rs, RecipeViewSet.list_action req db = (Ok rs, db)
         ∧ ∀ r, r ∈ rs ↔ r ∈ core_recipe db ∧ recipe_user r = user req).
Proof.
  split; [|split].
  - intros db. by rewrite params_to_ints_unfold.
  - intros req db key Hkey Hval%truthy_absent_or_empty.
    unfold RecipeViewSet.list_action, RecipeViewSet.get_queryset, without.
    cbn [query_params user].
    destruct Hkey as [-> | ->].
    + rewrite lookup_delete_eq, lookup_delete_ne by done. by rewrite Hval.
    + rewrite lookup_delete_eq, lookup_delete_ne by done. by rewrite Hval.
  - intros req db Ht%truthy_absent_or_empty Hi%truthy_absent_or_empty.
    destruct (recipe_list_ok req db None None) as (rs & Heq & Hin & _).
    { unfold reads_as. by rewrite Ht. }
    { unfold reads_as. by rewrite Hi. }
    exists rs. split; [done|]. intros r. rewrite Hin. simpl. tauto.
Qed.

Lemma absent_or_empty_filter_is_no_filter_witness :
  RecipeViewSet.list_action (sample_request [("tags", "")]) sample_db
  = (Ok [mkRecipe 4 100; mkRecipe 2 100; mkRecipe 1 100], sample_db).
Proof.
  destruct absent_or_empty_filter_is_no_filter as (_ & Hsame & _).
  rewrite (Hsame _ _ "tags"); [by_evaluation|by left|].
  right. by_evaluation.
Defined.

(** ** Attribute lists *)

(** C6: for the tag view and the ingredient view alike, with
    [assigned_only=1] the list is the requesting user's attributes that
    have at least one recipe linked to them, and those with none are
    left out; with [assigned_only=0] or without the parameter the list
    is all of the requesting user's attributes. *)
Theorem assigned_only_keeps_linked_attributes m req db :
  (query_params req !! "assigned_only" = Some "1" →
     ∃ rs, BaseRecipeAttrViewSet.list_action (attr_view m) req db = (Ok rs, db)
       ∧ ∀ a, a ∈ rs ↔
           (a ∈ attr_table db m ∧ attr_user a = user req)
           ∧ recipe_ids_of db m a ≠ [])
  ∧ (query_params req !! "assigned_only" = Some "0"
       ∨ query_params req !! "assigned_only" = None →
     ∃ rs, BaseRecipeAttrViewSet.list_action (attr_view m) req db = (Ok rs, db)
       ∧ ∀ a, a ∈ rs ↔ a ∈ attr_table db m ∧ attr_user a = user req).
Proof.
  assert (Hbase : QS.model (BaseRecipeAttrViewSet.queryset (attr_view m)) = m
                  ∧ QS.lookups (BaseRecipeAttrViewSet.queryset (attr_view m)) = [])
    by (by destruct m).
  destruct Hbase as [Hm Hl].
  split.
  - intros Hp.
    destruct (attr_list_ok (attr_view m) req db 1) as (rs & Heq & Hin & _).
    { unfold Py.get_default. by rewrite Hp. }
    exists rs. split; [done|]. intros a. rewrite Hin, Hm, Hl, Forall_nil.
    intuition lia.
  - intros Hp.
    destruct (attr_list_ok (attr_view m) req db 0) as (rs & Heq & Hin & _).
    { unfold Py.get_default. by destruct Hp as [-> | ->]. }
    exists rs. split; [done|]. intros a. rewrite Hin, Hm, Hl, Forall_nil.
    intuition lia.
Qed.

Lemma assigned_only_keeps_linked_attributes_witness :
  (∃ rs, BaseRecipeAttrViewSet.list_action TagViewSet
           (sample_request [("assigned_only", "1")]) sample_db = (Ok rs, sample_db)
     ∧ ∀ a, a ∈ rs ↔
         (a ∈ core_tag sample_db ∧ attr_user a = 100)
         ∧ recipe_ids_of sample_db Tag a ≠ [])
  ∧ (∃ rs, BaseRecipeAttrViewSet.list_action IngredientViewSet
             (sample_request []) sample_db = (Ok rs, sample_db)
     ∧ ∀ a, a ∈ rs ↔ a ∈ core_ingredient sample_db ∧ attr_user a = 100).
Proof.
  split.
  - apply (assigned_only_keeps_linked_attributes Tag
             (sample_request [("assigned_only", "1")]) sample_db).
    by_evaluation.
  - apply (assigned_only_keeps_linked_attributes Ingredient
             (sample_request []) sample_db).
    right. by_evaluation.
Defined.

(** C10: any integer literal is taken as the [assigned_only] value, and
    the link filter is put on the query set exactly when the integer is
    not zero, so that the request is answered as with "1" for a non-zero
    value and as with "0" for zero; a value that is not an integer
    literal (the empty text included) ends the request in the uncaught
    [ValueError] of [int]. *)
Theorem assigned_only_accepts_any_integer self req db s :
  query_params req !! "assigned_only" = Some s →
  (∀ n, Py.int (Py.Str s) = Ok n →
     BaseRecipeAttrViewSet.get_queryset self req db =
       (Ok (QS.distinct
              (QS.order_by attr_by_name_desc
                 (QS.filter (attr__user (user req))
                    (if decide (n = 0) then BaseRecipeAttrViewSet.queryset self
                     else QS.filter (recipe__isnull false)
                            (BaseRecipeAttrViewSet.queryset self))))), db)
     ∧ BaseRecipeAttrViewSet.list_action self req db =
         BaseRecipeAttrViewSet.list_action self
           (with_param "assigned_only" (if decide (n = 0) then "0" else "1") req) db)
  ∧ (Py.int (Py.Str s) = Raise ValueError →
     BaseRecipeAttrViewSet.get_queryset self req db = (Raise ValueError, db)
     ∧ BaseRecipeAttrViewSet.list_action self req db = (Raise ValueError, db)).
Proof.
  intros Hs.
  assert (Hget : Py.get_default (query_params req) "assigned_only" (Py.Int 0)
                 = Py.Str s) by (unfold Py.get_default; by rewrite Hs).
  split.
  - intros n Hn. split.
    + unfold BaseRecipeAttrViewSet.get_queryset, bind, lift, ret.
      rewrite Hget, Hn. unfold Py.bool.
      destruct (decide (n = 0)) as [->|Hne]; [done|].
      by apply Z.eqb_neq in Hne as ->.
    + rewrite !attr_list_unfold, Hget, Hn.
      unfold with_param, Py.get_default. cbn [query_params user].
      rewrite lookup_insert_eq. unfold Py.bool.
      destruct (decide (n = 0)) as [->|Hne]; [done|].
      by apply Z.eqb_neq in Hne as ->.
  - intros Hbad. split.
    + by rewrite attr_get_queryset_unfold, Hget, Hbad.
    + by rewrite attr_list_unfold, Hget, Hbad.
Qed.

Lemma assigned_only_accepts_any_integer_witness :
  BaseRecipeAttrViewSet.list_action TagViewSet
    (sample_request [("assigned_only", "-1")]) sample_db
  = BaseRecipeAttrViewSet.list_action TagViewSet
      (sample_request [("assigned_only", "1")]) sample_db
  ∧ BaseRecipeAttrViewSet.list_action TagViewSet
      (sample_request [("assigned_only", "2")]) sample_db
    = BaseRecipeAttrViewSet.list_action TagViewSet
        (sample_request [("assigned_only", "1")]) sample_db
  ∧ BaseRecipeAttrViewSet.list_action TagViewSet
      (sample_request [("assigned_only", "yes")]) sample_db
    = (Raise ValueError, sample_db).
Proof.
  split; [|split].
  - destruct (assigned_only_accepts_any_integer TagViewSet
                (sample_request [("assigned_only", "-1")]) sample_db "-1")
      as [Hok _]; [by_evaluation|].
    destruct (Hok (-1)) as [_ ->]; [reflexivity|]. by_evaluation.
  - destruct (assigned_only_accepts_any_integer TagViewSet
                (sample_request [("assigned_only", "2")]) sample_db "2")
      as [Hok _]; [by_evaluation|].
    destruct (Hok 2) as [_ ->]; [reflexivity|]. by_evaluation.
  - destruct (assigned_only_accepts_any_integer TagViewSet
                (sample_request [("assigned_only", "yes")]) sample_db "yes")
      as [_ Hbad]; [by_evaluation|].
    by destruct Hbad as [_ ->].
Defined.

(** ** Duplicates and order *)

(** C7: a list never holds a row twice, however many links made the row
    match, and when the identifiers of the table are pairwise different
    it never holds an identifier twice; on any database in which a
    recipe [r] of the requesting user has the tags 9 and 10, the request
    with [tags=8,9] lists [r] exactly once. *)
Theorem list_has_no_duplicates req db :
  (∀ rs db', RecipeViewSet.list_action req db = (Ok rs, db') →
     NoDup rs
     ∧ (NoDup (recipe_id <$> core_recipe db) → NoDup (recipe_id <$> rs)))
  ∧ (∀ self rs db', BaseRecipeAttrViewSet.list_action self req db = (Ok rs, db') →
     let m := QS.model (BaseRecipeAttrViewSet.queryset self) in
     NoDup rs
     ∧ (NoDup (attr_id <$> attr_table db m) → NoDup (attr_id <$> rs)))
  ∧ (∀ r,
       query_params req !! "tags" = Some "8,9" →
       query_params req !! "ingredients" = None →
       r ∈ core_recipe db →
       recipe_user r = user req →
       (∀ t, t ∈ tag_ids_of db r ↔ t = 9 ∨ t = 10) →
       ∃ rs, RecipeViewSet.list_action req db = (Ok rs, db)
         ∧ count_occ Recipe_eq_dec rs r = 1%nat).
Proof.
  split; [|split].
  - intros rs db' (_ & Hown & Hnd & _)%recipe_list_inv. split; [done|].
    intros Hkey. apply (NoDup_fmap_selection _ (core_recipe db)); [done| |done].
    intros r Hr. by apply Hown.
  - intros self rs db' (_ & Hown & Hnd & _)%attr_list_inv m. split; [done|].
    intros Hkey. apply (NoDup_fmap_selection _ (attr_table db m)); [done| |done].
    intros a Ha. by apply Hown.
  - intros r Ht Hi Hr Hu Htags.
    destruct (recipe_list_ok req db (Some [8; 9]) None)
      as (rs & Heq & Hin & Hnd & _).
    { unfold reads_as. rewrite Ht. by exists [8; 9]. }
    { unfold reads_as. by rewrite Hi. }
    exists rs. split; [done|].
    apply NoDup_ListNoDup in Hnd.
    apply (proj1 (NoDup_count_occ' Recipe_eq_dec rs) Hnd).
    apply list_elem_of_In, Hin.
    repeat split; try done.
    exists 9. split; [apply Htags; by left|]. apply list_elem_of_In. simpl. tauto.
Qed.

Lemma list_has_no_duplicates_witness :
  NoDup [mkRecipe 2 100; mkRecipe 1 100]
  ∧ NoDup [mkAttr 8 100 "vegan"; mkAttr 10 100 "soup"; mkAttr 9 100 "dessert"]
  ∧ ∃ rs, RecipeViewSet.list_action (sample_request [("tags", "8,9")]) sample_db
          = (Ok rs, sample_db)
      ∧ count_occ Recipe_eq_dec rs (mkRecipe 2 100) = 1%nat.
Proof.
  destruct (list_has_no_duplicates
              (sample_request [("tags", "8,9"); ("assigned_only", "1")]) sample_db)
    as (Hr & Ha & _).
  split; [|split].
  - eapply Hr. by_evaluation.
  - eapply (Ha TagViewSet). by_evaluation.
  - destruct (list_has_no_duplicates (sample_request [("tags", "8,9")]) sample_db)
      as (_ & _ & Hex).
    apply Hex; try by_evaluation.
    + apply list_elem_of_In. simpl. tauto.
    + intros t. unfold tag_ids_of. rewrite elem_of_linked_ids.
      rewrite list_elem_of_In. simpl. split.
      * intros [H|[H|[H|[H|[H|[H|[]]]]]]]; simplify_eq; tauto.
      * intros [-> | ->]; tauto.
Defined.

(** C8: the list of recipes is in descending order of identifier
    (strictly so when the identifiers of the table are pairwise
    different, so the order is then fully fixed), and the list of
    attributes in descending order of name (texts compared character by
    character on their codes), for every request that gets a list. *)
Theorem list_is_sorted_descending req db :
  (∀ rs db', RecipeViewSet.list_action req db = (Ok rs, db') →
     StronglySorted (λ a b, recipe_id b ≤ recipe_id a) rs
     ∧ (NoDup (recipe_id <$> core_recipe db) →
        StronglySorted (λ a b, recipe_id b < recipe_id a) rs))
  ∧ (∀ self rs db', BaseRecipeAttrViewSet.list_action self req db = (Ok rs, db') →
     StronglySorted (λ a b, String.le (attr_name b) (attr_name a)) rs).
Proof.
  split.
  - intros rs db' (_ & Hown & Hnd & Hsort)%recipe_list_inv. split; [done|].
    intros Hkey. apply StronglySorted_strict; [|done].
    apply (NoDup_fmap_selection _ (core_recipe db)); [done| |done].
    intros r Hr. by apply Hown.
  - by intros self rs db' (_ & _ & _ & Hsort)%attr_list_inv.
Qed.

Lemma list_is_sorted_descending_witness :
  StronglySorted (λ a b, recipe_id b ≤ recipe_id a)
    [mkRecipe 4 100; mkRecipe 2 100; mkRecipe 1 100]
  ∧ StronglySorted (λ a b, String.le (attr_name b) (attr_name a))
      [mkAttr 8 100 "vegan"; mkAttr 12 100 "unused"; mkAttr 10 100 "soup";
       mkAttr 9 100 "dessert"].
Proof.
  destruct (list_is_sorted_descending (sample_request []) sample_db) as [Hr Ha].
  split.
  - eapply (Hr _ sample_db). by_evaluation.
  - eapply (Ha TagViewSet). by_evaluation.
Defined.

(** ** Reading leaves the database as it was *)

(** C9: resolving a list request, for recipes and for attributes, with
    whatever parameters and whether it ends in a list or in an
    exception, leaves every table of the database as it was. *)
Theorem list_query_leaves_database_unchanged req db :
  (RecipeViewSet.get_queryset req db).2 = db
  ∧ (RecipeViewSet.list_action req db).2 = db
  ∧ ∀ self,
      (BaseRecipeAttrViewSet.get_queryset self req db).2 = db
      ∧ (BaseRecipeAttrViewSet.list_action self req db).2 = db.
Proof.
  split; [|split].
  - by destruct (recipe_get_queryset_cases req db) as [->|(t & i & _ & _ & ->)].
  - destruct (recipe_list_cases req db) as [->|(t & i & Ht & Hi)]; [done|].
    by destruct (recipe_list_ok req db t i Ht Hi) as (rs & -> & _).
  - intros self. split.
    + rewrite attr_get_queryset_unfold. by destruct (Py.int _).
    + rewrite attr_list_unfold. destruct (Py.int _) as [n|e]; [|done].
      by destruct (fetch_attrs_spec (attr_query self (Py.bool n) (user req)) db)
        as (rs & -> & _).
Qed.

(** ** Ownership stamping *)

Lemma recipe_id_lt_next_id db r : r ∈ core_recipe db → recipe_id r < next_id db.
Proof.
  unfold next_id. induction (core_recipe db) as [|r0 rows IH].
  - intros []%elem_of_nil.
  - rewrite fmap_cons. cbn [foldr].
    intros [->|Hr%IH]%elem_of_cons; lia.
Qed.

(** The keyword argument wins over the payload. *)
Lemma save_data_user (u : Z) (payload : gmap string FieldValue) :
  ({[ "user" := FInt u ]} ∪ payload) !! "user" = Some (FInt u).
Proof. apply lookup_union_Some_l, lookup_singleton_eq. Qed.

Lemma save_row_spec r db :
  ∃ db', save_row r db = (Ok r, db')
    ∧ r ∈ core_recipe db'
    ∧ (∀ r', r' ∈ core_recipe db' → recipe_id r' = recipe_id r → r' = r)
    ∧ (∀ r', recipe_id r' ≠ recipe_id r →
         r' ∈ core_recipe db' ↔ r' ∈ core_recipe db).
Proof.
  unfold save_row, bind, select, commit, ret.
  eexists; split; [reflexivity|]. cbn [with_recipes core_recipe].
  case_decide as Hin.
  - split; [|split].
    + apply list_elem_of_fmap in Hin as (r0 & Hid & Hr0).
      apply list_elem_of_fmap. exists r0. split; [|done].
      by rewrite decide_True.
    + intros r' (r0 & -> & Hr0)%list_elem_of_fmap. by case_decide.
    + intros r' Hne. rewrite list_elem_of_fmap. split.
      * intros (r0 & -> & Hr0). case_decide; [done|]. done.
      * intros Hr'. exists r'. split; [|done]. by rewrite decide_False.
  - split; [|split].
    + apply elem_of_app. right. by left.
    + intros r' [Hr'|Hr']%elem_of_app Hid.
      * exfalso. apply Hin. rewrite <- Hid. by apply list_elem_of_fmap_2.
      * by apply list_elem_of_singleton in Hr'.
    + intros r' Hne. rewrite elem_of_app, list_elem_of_singleton.
      split; [|tauto]. intros [?| ->]; [done|]. by destruct Hne.
Qed.

(** C2: [perform_create] and [perform_update] are the same save with the
    requesting user as keyword; whatever the payload holds under [user],
    the save succeeds and the stored recipe (the new row, or the row of
    the serializer's instance) is owned by the requesting user, it is
    the only row with its identifier, and the other rows are as they
    were. *)
Theorem save_stamps_requesting_owner req ser db :
  RecipeViewSet.perform_update req ser db = RecipeViewSet.perform_create req ser db
  ∧ ∃ r db',
      RecipeViewSet.perform_create req ser db = (Ok tt, db')
      ∧ recipe_id r = match instance ser with
                      | Some inst => recipe_id inst
                      | None => next_id db
                      end
      ∧ recipe_user r = user req
      ∧ r ∈ core_recipe db'
      ∧ (∀ r', r' ∈ core_recipe db' → recipe_id r' = recipe_id r → r' = r)
      ∧ (∀ r', recipe_id r' ≠ recipe_id r →
           r' ∈ core_recipe db' ↔ r' ∈ core_recipe db).
Proof.
  split; [done|].
  unfold RecipeViewSet.perform_create, save.
  destruct (instance ser) as [inst|].
  - unfold update. rewrite save_data_user.
    destruct (save_row_spec (mkRecipe (recipe_id inst) (user req)) db)
      as (db' & Heq & Hin & Huniq & Hframe).
    exists (mkRecipe (recipe_id inst) (user req)), db'.
    unfold bind at 1. rewrite Heq. by split_and!.
  - unfold create. rewrite save_data_user.
    exists (mkRecipe (next_id db) (user req)).
    eexists. split; [reflexivity|]. cbn [with_recipes core_recipe recipe_id].
    split_and!; [done|done| | |].
    + apply elem_of_app. right. by left.
    + intros r' [Hr'|Hr']%elem_of_app Hid.
      * apply recipe_id_lt_next_id in Hr'. lia.
      * by apply list_elem_of_singleton in Hr'.
    + intros r' Hne. rewrite elem_of_app, list_elem_of_singleton.
      split; [|tauto]. intros [?| ->]; [done|]. by destruct Hne.
Qed.

(** The round trip of the specification: the payload claims owner 200,
    the request is authenticated as owner 100, and the stored recipe,
    created or updated, belongs to owner 100. *)
Example spoofed_owner_is_overridden :
  let spoofed := {[ "user" := FInt 200 ]} in
  core_recipe
    (RecipeViewSet.perform_create (sample_request [])
       (mkSerializer None spoofed) sample_db).2
  = core_recipe sample_db ++ [mkRecipe 5 100]
  ∧ core_recipe
      (RecipeViewSet.perform_update (sample_request [])
         (mkSerializer (Some (mkRecipe 2 100)) spoofed) sample_db).2
    = core_recipe sample_db.
Proof. split; by_evaluation. Qed.

(** * Further properties of the views *)

(** ** The pieces of an identifier list *)

Lemma split_nonempty sep s : ∃ tok rest, Py.split sep s = tok :: rest.
Proof.
  destruct s as [|c s]; cbn [Py.split]; [by eexists _, _|].
  destruct (Ascii.eqb c sep); [by eexists _, _|].
  destruct (Py.split sep s); by eexists _, _.
Qed.

(** Cutting a text at one separator and splitting both sides gives the
    pieces of the whole. *)
Lemma split_app sep s1 s2 :
  Py.split sep (String.append s1 (String sep s2))
  = Py.split sep s1 ++ Py.split sep s2.
Proof.
  induction s1 as [|c s1 IH].
  - change (Py.split sep (String sep s2) = [EmptyString] ++ Py.split sep s2).
    cbn [Py.split]. by rewrite Ascii.eqb_refl.
  - change (String.append (String c s1) (String sep s2))
      with (String c (String.append s1 (String sep s2))).
    cbn [Py.split]. rewrite IH.
    destruct (Ascii.eqb c sep); [done|].
    by destruct (split_nonempty sep s1) as (tok & rest & ->).
Qed.

Lemma int_str_ok tok z : Py.int (Py.Str tok) = Ok z ↔ Py.parse_int tok = Some z.
Proof. cbn [Py.int]. destruct (Py.parse_int tok); naive_solver. Qed.

Lemma int_str_bad tok :
  Py.int (Py.Str tok) = Raise ValueError ↔ Py.parse_int tok = None.
Proof. cbn [Py.int]. destruct (Py.parse_int tok); naive_solver. Qed.

(** X1: [_params_to_ints] returns a list exactly when every piece
    between commas is accepted by [int], and then the list holds the
    value of each piece, one per piece and in the order of the text; it
    raises [ValueError] exactly when some piece is refused. *)
Theorem params_to_ints_pointwise s db :
  (∀ ids, RecipeViewSet._params_to_ints s db = (Ok ids, db)
          ↔ Forall2 (λ tok z, Py.int (Py.Str tok) = Ok z) (Py.split "," s) ids)
  ∧ (RecipeViewSet._params_to_ints s db = (Raise ValueError, db)
     ↔ ∃ tok, tok ∈ Py.split "," s ∧ Py.int (Py.Str tok) = Raise ValueError).
Proof.
  rewrite params_to_ints_unfold. split.
  - intros ids.
    assert (Forall2 (λ tok z, Py.int (Py.Str tok) = Ok z) (Py.split "," s) ids
            ↔ mapM Py.parse_int (Py.split "," s) = Some ids) as ->.
    { rewrite mapM_Some.
      split; intros H; (eapply Forall2_impl; [exact H|]);
        intros tok z; apply int_str_ok. }
    destruct (mapM Py.parse_int (Py.split "," s)); naive_solver.
  - assert ((∃ tok, tok ∈ Py.split "," s ∧ Py.int (Py.Str tok) = Raise ValueError)
            ↔ mapM Py.parse_int (Py.split "," s) = None) as ->.
    { rewrite mapM_None, Exists_exists. by setoid_rewrite int_str_bad. }
    destruct (mapM Py.parse_int (Py.split "," s)); naive_solver.
Qed.

(** X2: a text that begins with a comma, ends with a comma, or has two
    commas in a row has an empty piece, and [_params_to_ints] raises
    [ValueError] on it whatever the other pieces are. *)
Theorem empty_piece_is_rejected db :
  (∀ s, RecipeViewSet._params_to_ints (String "," s) db = (Raise ValueError, db))
  ∧ (∀ s, RecipeViewSet._params_to_ints (String.append s ",") db
          = (Raise ValueError, db))
  ∧ (∀ s1 s2,
       RecipeViewSet._params_to_ints
         (String.append s1 (String "," (String "," s2))) db
       = (Raise ValueError, db)).
Proof.
  split; [|split].
  - intros s. apply (params_to_ints_bad _ ""); [|done].
    cbn [Py.split]. rewrite Ascii.eqb_refl. by left.
  - intros s. apply (params_to_ints_bad _ ""); [|done].
    rewrite split_app. apply elem_of_app. right. by left.
  - intros s1 s2. apply (params_to_ints_bad _ ""); [|done].
    rewrite split_app. apply elem_of_app. right.
    cbn [Py.split]. rewrite Ascii.eqb_refl. by left.
Qed.

(** ** Identifier lists as filters *)

Lemma reads_as_parsed_inv s db ids t :
  RecipeViewSet._params_to_ints s db = (Ok ids, db) →
  reads_as (Some s) t → t = Some ids.
Proof.
  intros [Hp Hs]%params_to_ints_ok_inv. unfold reads_as.
  rewrite truthy_nonempty by done. intros (l & -> & Hl). congruence.
Qed.

(** A filter value that is looked at and does not parse ends the list
    request, whatever the other value is. *)
Lemma recipe_list_bad_param req db key s :
  key = "tags" ∨ key = "ingredients" →
  Py.truthy (query_params req !! key) = Some s →
  mapM Py.parse_int (Py.split "," s) = None →
  RecipeViewSet.list_action req db = (Raise ValueError, db).
Proof.
  intros Hkey Hs Hbad.
  destruct (recipe_list_cases req db) as [Hq|(t & i & Ht & Hi)]; [done|exfalso].
  unfold reads_as in Ht, Hi.
  destruct Hkey as [-> | ->]; rewrite Hs in *.
  - destruct Ht as (l & _ & Hl). congruence.
  - destruct Hi as (l & _ & Hl). congruence.
Qed.

Lemma NoDup_fmap_inj_on {A} (f : A → Z) (l : list A) x y :
  NoDup (f <$> l) → x ∈ l → y ∈ l → f x = f y → x = y.
Proof.
  intros Hkey Hx Hy Hxy. induction l as [|z l IH]; [by apply elem_of_nil in Hx|].
  rewrite fmap_cons in Hkey. apply NoDup_cons in Hkey as [Hz Hkey].
  apply elem_of_cons in Hx as [->|Hx]; apply elem_of_cons in Hy as [->|Hy].
  - done.
  - exfalso. apply Hz. rewrite Hxy. by apply list_elem_of_fmap_2.
  - exfalso. apply Hz. rewrite <- Hxy. by apply list_elem_of_fmap_2.
  - by apply IH.
Qed.

(** Two selections from a table with pairwise different identifiers,
    both without repetition and in descending order of identifier, are
    the same list as soon as they hold the same rows. *)
Lemma recipe_lists_equal (table rs1 rs2 : list Recipe) :
  NoDup (recipe_id <$> table) →
  (∀ r, r ∈ rs1 → r ∈ table) → (∀ r, r ∈ rs2 → r ∈ table) →
  NoDup rs1 → NoDup rs2 →
  StronglySorted (recipe_before recipe_by_id_desc) rs1 →
  StronglySorted (recipe_before recipe_by_id_desc) rs2 →
  (∀ r, r ∈ rs1 ↔ r ∈ rs2) →
  rs1 = rs2.
Proof.
  intros Hkey H1 H2 Hnd1 Hnd2 Hs1 Hs2 Hsame.
  apply (StronglySorted_unique_strong (recipe_before recipe_by_id_desc));
    [|done|done|by apply NoDup_Permutation].
  intros x1 x2 Hx1%H1 Hx2%H2 Ha Hb. simpl in Ha, Hb.
  apply (NoDup_fmap_inj_on recipe_id table); [done..|lia].
Qed.

(** Of two lists in strictly descending order of a key, the one whose
    rows all occur in the other is the other with rows left out. *)
Lemma sorted_subset_sublist {A} (f : A → Z) (l1 l2 : list A) :
  StronglySorted (λ a b, f b < f a) l1 →
  StronglySorted (λ a b, f b < f a) l2 →
  (∀ x, x ∈ l1 → x ∈ l2) →
  l1 `sublist_of` l2.
Proof.
  intros Hs1 Hs2. revert l1 Hs1.
  induction Hs2 as [|y l2 Hs2 IH Hy]; intros l1 Hs1 Hsub.
  - destruct l1 as [|x l1]; [constructor|].
    exfalso. apply (elem_of_nil x), Hsub. by left.
  - destruct Hs1 as [|x l1 Hs1 Hx]; [apply sublist_nil_l|].
    rewrite Forall_forall in Hx, Hy.
    assert (x ∈ y :: l2) as [->|Hxl2]%elem_of_cons by (apply Hsub; by left).
    + apply sublist_skip, IH; [done|]. intros z Hz.
      assert (z ∈ y :: l2) as [->|?]%elem_of_cons by (apply Hsub; by right);
        [|done].
      apply Hx in Hz. lia.
    + apply sublist_cons, IH; [by constructor; [|apply Forall_forall]|].
      intros z [->|Hz]%elem_of_cons; [done|].
      assert (z ∈ y :: l2) as [->|?]%elem_of_cons by (apply Hsub; by right);
        [|done].
      apply Hx in Hz. apply Hy in Hxl2. lia.
Qed.

(** X3: a [tags] (or [ingredients]) value that parses to identifiers no
    link of the table carries is no error: the request gets the empty
    list whenever the other filter value is absent, empty or parses, and
    it ends in [ValueError] only when the other value is malformed. *)
Theorem unlinked_ids_give_an_empty_list req db key other s ids :
  (key = "tags" ∧ other = "ingredients")
    ∨ (key = "ingredients" ∧ other = "tags") →
  query_params req !! key = Some s →
  RecipeViewSet._params_to_ints s db = (Ok ids, db) →
  (∀ lnk, lnk ∈ (if decide (key = "tags") then core_recipe_tags db
                 else core_recipe_ingredients db) → lnk.2 ∉ ids) →
  ((∃ i, reads_as (query_params req !! other) i) →
     RecipeViewSet.list_action req db = (Ok [], db))
  ∧ ((¬ ∃ i, reads_as (query_params req !! other) i) →
     RecipeViewSet.list_action req db = (Raise ValueError, db)).
Proof.
  intros Hkey Hs Hp Hnone. split.
  - intros [o Ho].
    pose proof (reads_as_parsed _ _ _ Hp) as Hk. rewrite <- Hs in Hk.
    assert (∃ t i, reads_as (query_params req !! "tags") t
                   ∧ reads_as (query_params req !! "ingredients") i)
      as (t & i & Ht & Hi).
    { destruct Hkey as [[-> ->]|[-> ->]]; eauto. }
    destruct (recipe_list_ok req db t i Ht Hi) as (rs & Heq & Hin & _).
    rewrite Heq. f_equal. f_equal.
    destruct rs as [|r rs]; [done|exfalso].
    destruct (proj1 (Hin r)) as (_ & _ & Hwt & Hwi); [by left|].
    destruct Hkey as [[-> ->]|[-> ->]]; rewrite Hs in *.
    + rewrite (reads_as_parsed_inv _ _ _ _ Hp Ht) in Hwt.
      destruct Hwt as (x & Hx%elem_of_linked_ids & Hids).
      rewrite decide_True in Hnone by done. by apply (Hnone _ Hx).
    + rewrite (reads_as_parsed_inv _ _ _ _ Hp Hi) in Hwi.
      destruct Hwi as (x & Hx%elem_of_linked_ids & Hids).
      rewrite decide_False in Hnone by done. by apply (Hnone _ Hx).
  - intros Hbad.
    destruct (reads_as_or_bad (query_params req !! other))
      as [Hok|(s' & Hs' & Hnone')]; [done|].
    apply (recipe_list_bad_param req db other s'); [|done|done].
    destruct Hkey as [[_ ->]|[_ ->]]; auto.
Qed.

Lemma unlinked_ids_give_an_empty_list_witness :
  RecipeViewSet.list_action (sample_request [("tags", "77,-3")]) sample_db
    = (Ok [], sample_db)
  ∧ RecipeViewSet.list_action
      (sample_request [("tags", "77,-3"); ("ingredients", "x")]) sample_db
    = (Raise ValueError, sample_db).
Proof.
  split.
  - apply (unlinked_ids_give_an_empty_list _ _ "tags" "ingredients" "77,-3" [77; -3]).
    + by left.
    + by_evaluation.
    + by_evaluation.
    + intros lnk Hlnk%list_elem_of_In Hin%list_elem_of_In. simpl in Hlnk, Hin.
      destruct Hlnk as [<-|[<-|[<-|[<-|[<-|[<-|[]]]]]]]; simpl in Hin;
        destruct Hin as [?|[?|[]]]; discriminate.
    + by exists None.
  - apply (unlinked_ids_give_an_empty_list _ _ "tags" "ingredients" "77,-3" [77; -3]).
    + by left.
    + by_evaluation.
    + by_evaluation.
    + intros lnk Hlnk%list_elem_of_In Hin%list_elem_of_In. simpl in Hlnk, Hin.
      destruct Hlnk as [<-|[<-|[<-|[<-|[<-|[<-|[]]]]]]]; simpl in Hin;
        destruct Hin as [?|[?|[]]]; discriminate.
    + intros [i Hi]. unfold reads_as in Hi. vm_compute in Hi.
      destruct Hi as (l & _ & Hl). discriminate Hl.
Defined.

Lemma wanted_same_ids l1 l2 have :
  (∀ x, x ∈ l1 ↔ x ∈ l2) → wanted (Some l1) have ↔ wanted (Some l2) have.
Proof.
  intros Hsame. unfold wanted, intersects.
  split; intros (x & Hx & Hl); exists x; (split; [done|]); by apply Hsame.
Qed.

(** X4: in a table with pairwise different identifiers, the list a
    [tags] value gets depends on the set of identifiers it parses to
    only: the order of the identifiers in the text and their repetition
    change nothing, neither the rows listed nor their order. *)
Theorem tag_ids_matter_as_a_set req1 req2 db tags1 tags2 ids1 ids2 :
  NoDup (recipe_id <$> core_recipe db) →
  user req1 = user req2 →
  query_params req1 !! "ingredients" = query_params req2 !! "ingredients" →
  query_params req1 !! "tags" = Some tags1 →
  query_params req2 !! "tags" = Some tags2 →
  RecipeViewSet._params_to_ints tags1 db = (Ok ids1, db) →
  RecipeViewSet._params_to_ints tags2 db = (Ok ids2, db) →
  (∀ x, x ∈ ids1 ↔ x ∈ ids2) →
  RecipeViewSet.list_action req1 db = RecipeViewSet.list_action req2 db.
Proof.
  intros Hkey Hu Hi Ht1 Ht2 Hp1%reads_as_parsed Hp2%reads_as_parsed Hsame.
  rewrite <- Ht1 in Hp1. rewrite <- Ht2 in Hp2.
  destruct (reads_as_or_bad (query_params req1 !! "ingredients"))
    as [[i Hi1]|(s & Hs & Hbad)].
  - assert (Hi2 : reads_as (query_params req2 !! "ingredients") i)
      by (by rewrite <- Hi).
    destruct (recipe_list_ok req1 db _ _ Hp1 Hi1)
      as (rs1 & -> & Hin1 & Hnd1 & Hs1).
    destruct (recipe_list_ok req2 db _ _ Hp2 Hi2)
      as (rs2 & -> & Hin2 & Hnd2 & Hs2).
    f_equal. f_equal.
    apply (recipe_lists_equal (core_recipe db)); try done.
    + intros r Hr. by destruct (proj1 (Hin1 r) Hr).
    + intros r Hr. by destruct (proj1 (Hin2 r) Hr).
    + intros r. rewrite Hin1, Hin2, Hu.
      rewrite (wanted_same_ids ids1 ids2) by done. tauto.
  - rewrite (recipe_list_bad_param req1 db "ingredients" s) by auto.
    rewrite Hi in Hs.
    by rewrite (recipe_list_bad_param req2 db "ingredients" s) by auto.
Qed.

Lemma tag_ids_matter_as_a_set_witness :
  RecipeViewSet.list_action (sample_request [("tags", "8,9")]) sample_db
  = RecipeViewSet.list_action (sample_request [("tags", "9,8,9")]) sample_db.
Proof.
  apply (tag_ids_matter_as_a_set _ _ _ "8,9" "9,8,9" [8; 9] [9; 8; 9]);
    try by_evaluation.
  - apply NoDup_ListNoDup. repeat constructor; simpl; intuition discriminate.
  - intros x. rewrite !list_elem_of_In. simpl. tauto.
Defined.

(** X5: in a table with pairwise different identifiers, the list of a
    request with filters is the list of the same request without its
    filters with rows left out: filtering drops rows and never reorders
    or adds one. *)
Theorem filtered_list_is_a_sublist req db rs db' :
  NoDup (recipe_id <$> core_recipe db) →
  RecipeViewSet.list_action req db = (Ok rs, db') →
  ∃ all,
    RecipeViewSet.list_action (without "tags" (without "ingredients" req)) db
      = (Ok all, db)
    ∧ rs `sublist_of` all.
Proof.
  intros Hkey Hlist.
  destruct (recipe_list_cases req db) as [Hbad|(t & i & Ht & Hi)];
    [congruence|].
  destruct (recipe_list_ok req db t i Ht Hi) as (rs' & Heq & Hin & Hnd & Hs).
  rewrite Heq in Hlist. simplify_eq.
  destruct (recipe_list_ok (without "tags" (without "ingredients" req)) db' None None)
    as (all & Hall & Hina & Hnda & Hsa).
  { unfold reads_as, without. cbn [query_params]. by rewrite lookup_delete_eq. }
  { unfold reads_as, without. cbn [query_params].
    by rewrite lookup_delete_ne, lookup_delete_eq by done. }
  exists all. split; [done|].
  apply (sorted_subset_sublist recipe_id).
  - apply StronglySorted_strict; [|done].
    apply (NoDup_fmap_selection _ (core_recipe db')); [done| |done].
    intros r Hr. by destruct (proj1 (Hin r) Hr).
  - apply StronglySorted_strict; [|done].
    apply (NoDup_fmap_selection _ (core_recipe db')); [done| |done].
    intros r Hr. by destruct (proj1 (Hina r) Hr).
  - intros r Hr. apply Hina. destruct (proj1 (Hin r) Hr) as (? & ? & _).
    unfold without. cbn [user wanted]. done.
Qed.

Lemma filtered_list_is_a_sublist_witness :
  ∃ all,
    RecipeViewSet.list_action
      (without "tags" (without "ingredients" (sample_request [("tags", "8,9")])))
      sample_db = (Ok all, sample_db)
    ∧ [mkRecipe 2 100; mkRecipe 1 100] `sublist_of` all.
Proof.
  apply (filtered_list_is_a_sublist (sample_request [("tags", "8,9")])
           sample_db _ sample_db).
  - apply NoDup_ListNoDup. repeat constructor; simpl; intuition discriminate.
  - by_evaluation.
Defined.

(** ** What a list depends on *)

Lemma fetch_recipes_tables q db1 db2 :
  core_recipe db1 = core_recipe db2 →
  core_recipe_tags db1 = core_recipe_tags db2 →
  core_recipe_ingredients db1 = core_recipe_ingredients db2 →
  (fetch_recipes q db1).1 = (fetch_recipes q db2).1.
Proof.
  intros Hr Ht Hi. unfold fetch_recipes, bind, select, ret. cbn [fst].
  rewrite Hr.
  assert (Hfold : ∀ ls rows, foldl (recipe_lookup db1) rows ls
                             = foldl (recipe_lookup db2) rows ls).
  { induction ls as [|l ls IH]; intros rows; [done|]. cbn [foldl].
    rewrite IH. f_equal. destruct l; cbn [recipe_lookup]; by rewrite ?Ht, ?Hi. }
  by rewrite Hfold.
Qed.

Lemma fetch_attrs_tables q db1 db2 :
  attr_table db1 (QS.model q) = attr_table db2 (QS.model q) →
  attr_links db1 (QS.model q) = attr_links db2 (QS.model q) →
  (fetch_attrs q db1).1 = (fetch_attrs q db2).1.
Proof.
  intros Ht Hl. unfold fetch_attrs, bind, select, ret. cbn [fst].
  rewrite Ht.
  assert (Hfold : ∀ ls rows, foldl (attr_lookup db1 (QS.model q)) rows ls
                             = foldl (attr_lookup db2 (QS.model q)) rows ls).
  { induction ls as [|l ls IH]; intros rows; [done|]. cbn [foldl].
    rewrite IH. f_equal. destruct l as [[|]|u]; cbn [attr_lookup]; by rewrite ?Hl. }
  by rewrite Hfold.
Qed.

(** What [get_queryset] returns does not depend on the database. *)
Lemma recipe_get_queryset_any_db req db1 db2 :
  (RecipeViewSet.get_queryset req db1).1 = (RecipeViewSet.get_queryset req db2).1.
Proof.
  destruct (recipe_get_queryset_cases req db1) as [H1|(t & i & Ht & Hi & H1)].
  - destruct (recipe_get_queryset_cases req db2) as [H2|(t & i & Ht & Hi & H2)].
    + by rewrite H1, H2.
    + rewrite (recipe_get_queryset_ok req db1 t i Ht Hi) in H1. done.
  - by rewrite H1, (recipe_get_queryset_ok req db2 t i Ht Hi).
Qed.

(** X6: the list of recipes is fixed by the requesting user, the [tags]
    and [ingredients] values, the recipe table and the two link tables;
    the list of tags (of ingredients) by the requesting user, the
    [assigned_only] value, the tag (ingredient) table and its link
    table.  Other query parameters, malformed ones included, and the
    other tables are never read: the recipe filter does not look up the
    tags or ingredients named, and the attribute filter does not look
    up the recipes linked. *)
Theorem lists_read_only_what_they_use :
  (∀ req1 req2 db1 db2,
     user req1 = user req2 →
     query_params req1 !! "tags" = query_params req2 !! "tags" →
     query_params req1 !! "ingredients" = query_params req2 !! "ingredients" →
     core_recipe db1 = core_recipe db2 →
     core_recipe_tags db1 = core_recipe_tags db2 →
     core_recipe_ingredients db1 = core_recipe_ingredients db2 →
     (RecipeViewSet.list_action req1 db1).1
     = (RecipeViewSet.list_action req2 db2).1)
  ∧ (∀ m req1 req2 db1 db2,
       user req1 = user req2 →
       query_params req1 !! "assigned_only" = query_params req2 !! "assigned_only" →
       attr_table db1 m = attr_table db2 m →
       attr_links db1 m = attr_links db2 m →
       (BaseRecipeAttrViewSet.list_action (attr_view m) req1 db1).1
       = (BaseRecipeAttrViewSet.list_action (attr_view m) req2 db2).1).
Proof.
  split.
  - intros req1 req2 db1 db2 Hu Ht Hi Hr Hlt Hli.
    assert (Hreq : RecipeViewSet.get_queryset req1 db1
                   = RecipeViewSet.get_queryset req2 db1).
    { unfold RecipeViewSet.get_queryset. by rewrite Hu, Ht, Hi. }
    unfold RecipeViewSet.list_action, bind. rewrite Hreq.
    destruct (recipe_get_queryset_cases req2 db1) as [H1|(t & i & Ht2 & Hi2 & H1)].
    + pose proof (recipe_get_queryset_any_db req2 db1 db2) as Hq.
      rewrite H1 in *. cbn [fst] in Hq.
      destruct (RecipeViewSet.get_queryset req2 db2) as [res db3].
      cbn [fst] in Hq. by subst res.
    + rewrite H1, (recipe_get_queryset_ok req2 db2 t i Ht2 Hi2).
      by apply fetch_recipes_tables.
  - intros m req1 req2 db1 db2 Hu Ha Ht Hl.
    rewrite !attr_list_unfold. unfold Py.get_default. rewrite Ha, Hu.
    destruct (Py.int _) as [n|e]; [|done].
    apply fetch_attrs_tables; by destruct m.
Qed.

Lemma lists_read_only_what_they_use_witness :
  (RecipeViewSet.list_action
     (sample_request [("tags", "8"); ("assigned_only", "x")]) sample_db).1
  = (RecipeViewSet.list_action (sample_request [("tags", "8")])
       (mkDB (core_recipe sample_db) [] [] (core_recipe_tags sample_db)
             (core_recipe_ingredients sample_db))).1
  ∧ (BaseRecipeAttrViewSet.list_action TagViewSet
       (sample_request [("tags", "x")]) sample_db).1
    = (BaseRecipeAttrViewSet.list_action TagViewSet (sample_request [])
         (mkDB [] (core_tag sample_db) [] (core_recipe_tags sample_db) [])).1.
Proof.
  destruct lists_read_only_what_they_use as [Hr Ha].
  split.
  - apply Hr; by_evaluation.
  - apply (Ha Tag); by_evaluation.
Defined.

(** ** Saving, then listing *)

Lemma perform_save_spec req ser db :
  ∃ r db',
    RecipeViewSet.perform_create req ser db = (Ok tt, db')
    ∧ recipe_id r = match instance ser with
                    | Some inst => recipe_id inst
                    | None => next_id db
                    end
    ∧ recipe_user r = user req
    ∧ r ∈ core_recipe db'
    ∧ (∀ r', r' ∈ core_recipe db' → recipe_id r' = recipe_id r → r' = r).
Proof.
  unfold RecipeViewSet.perform_create, save.
  destruct (instance ser) as [inst|].
  - unfold update. rewrite save_data_user.
    destruct (save_row_spec (mkRecipe (recipe_id inst) (user req)) db)
      as (db' & Heq & Hin & Huniq & _).
    exists (mkRecipe (recipe_id inst) (user req)), db'.
    unfold bind at 1. rewrite Heq. by split_and!.
  - unfold create. rewrite save_data_user.
    exists (mkRecipe (next_id db) (user req)).
    eexists. split; [reflexivity|]. cbn [with_recipes core_recipe recipe_id].
    split_and!; [done|done| |].
    + apply elem_of_app. right. by left.
    + intros r' [Hr'|Hr']%elem_of_app Hid.
      * apply recipe_id_lt_next_id in Hr'. lia.
      * by apply list_elem_of_singleton in Hr'.
Qed.

(** X7: after [perform_create] or [perform_update] (one and the same
    save), the saved recipe is in the unfiltered list of the requesting
    user, and the unfiltered list of any other user holds no recipe with
    its identifier. *)
Theorem saved_recipe_is_listed_to_its_owner_only req ser db viewer :
  query_params viewer !! "tags" = None →
  query_params viewer !! "ingredients" = None →
  let db' := (RecipeViewSet.perform_update req ser db).2 in
  let rid := match instance ser with
             | Some inst => recipe_id inst
             | None => next_id db
             end in
  ∃ rs, RecipeViewSet.list_action viewer db' = (Ok rs, db')
    ∧ (user viewer = user req → mkRecipe rid (user req) ∈ rs)
    ∧ (user viewer ≠ user req → ∀ r, r ∈ rs → recipe_id r ≠ rid).
Proof.
  intros Ht Hi db' rid.
  destruct (perform_save_spec req ser db)
    as (r & db1 & Heq & Hid & Hu & Hin & Huniq).
  assert (Hdb : (RecipeViewSet.perform_update req ser db).2 = db1).
  { change (RecipeViewSet.perform_update req ser db)
      with (RecipeViewSet.perform_create req ser db). by rewrite Heq. }
  subst db'. rewrite Hdb. clear Hdb.
  assert (r = mkRecipe rid (user req)) as Hr
    by (destruct r; simpl in *; by subst).
  destruct (recipe_list_ok viewer db1 None None) as (rs & Hlist & Hrs & _).
  { unfold reads_as. by rewrite Ht. }
  { unfold reads_as. by rewrite Hi. }
  exists rs. split; [done|]. split.
  - intros Hsame. apply Hrs. rewrite <- Hr. by rewrite Hsame.
  - intros Hother r' Hr' Hid'.
    destruct (proj1 (Hrs r') Hr') as (Hin' & Hu' & _).
    assert (r' = r) as -> by (apply Huniq; [done|]; by rewrite Hid', Hid).
    apply Hother. by rewrite <- Hu'.
Qed.

Lemma saved_recipe_is_listed_to_its_owner_only_witness :
  ∃ rs, RecipeViewSet.list_action (mkRequest 200 ∅)
          (RecipeViewSet.perform_update (sample_request [])
             (mkSerializer (Some (mkRecipe 3 200)) {[ "user" := FInt 200 ]})
             sample_db).2
        = (Ok rs, (RecipeViewSet.perform_update (sample_request [])
             (mkSerializer (Some (mkRecipe 3 200)) {[ "user" := FInt 200 ]})
             sample_db).2)
    ∧ (200 = 100 → mkRecipe 3 100 ∈ rs)
    ∧ (200 ≠ 100 → ∀ r, r ∈ rs → recipe_id r ≠ 3).
Proof.
  apply (saved_recipe_is_listed_to_its_owner_only (sample_request [])
           (mkSerializer (Some (mkRecipe 3 200)) {[ "user" := FInt 200 ]})
           sample_db (mkRequest 200 ∅)); by_evaluation.
Defined.

(** ** Looking up one recipe *)

(** Among rows with pairwise different keys, the rows with a given key
    are none or one. *)
Lemma filter_key_cases {A} (f : A → Z) (k : Z) (l : list A) :
  NoDup (f <$> l) →
  (filter (λ x, f x = k) l = [] ∧ ∀ x, x ∈ l → f x ≠ k)
  ∨ (∃ x, filter (λ x, f x = k) l = [x] ∧ x ∈ l ∧ f x = k).
Proof.
  induction l as [|y l IH]; [left; split; [done|by intros x ?%elem_of_nil]|].
  rewrite fmap_cons. intros [Hy Hnd]%NoDup_cons.
  destruct (decide (f y = k)) as [Hk|Hk].
  - right. exists y. rewrite filter_cons_True by done.
    split; [|split; [by left|done]]. f_equal.
    destruct (IH Hnd) as [[-> _]|(x & _ & Hx & Hfx)]; [done|].
    exfalso. apply Hy. rewrite Hk, <- Hfx. by apply list_elem_of_fmap_2.
  - rewrite filter_cons_False by done.
    destruct (IH Hnd) as [[-> Hall]|(x & -> & Hx & Hfx)].
    + left. split; [done|]. intros x [->|?]%elem_of_cons; auto.
    + right. exists x. split; [done|]. split; [by right|done].
Qed.

(** [get_object] in terms of the list of the same request. *)
Lemma get_object_unfold self db :
  RecipeActions.get_object self db =
  (match RecipeViewSet.list_action (RecipeActions.request self) db with
   | (Raise e, _) => RecipeActions.Fail (RecipeActions.Uncaught e)
   | (Ok rows, _) =>
       match Py.parse_int (RecipeActions.pk self) with
       | None => RecipeActions.Fail RecipeActions.Http404
       | Some id =>
           match filter (λ r, recipe_id r = id) rows with
           | [] => RecipeActions.Fail RecipeActions.Http404
           | [obj] => RecipeActions.Done obj
           | _ => RecipeActions.Fail RecipeActions.MultipleObjectsReturned
           end
       end
   end, db).
Proof.
  unfold RecipeActions.get_object, RecipeViewSet.list_action, bind.
  destruct (recipe_get_queryset_cases (RecipeActions.request self) db)
    as [->|(t & i & _ & _ & ->)]; [done|].
  destruct (fetch_recipes_spec
              (recipe_query t i (user (RecipeActions.request self))) db)
    as (rs & -> & _).
  destruct (Py.parse_int _) as [id|]; [|done].
  by destruct (filter _ rs) as [|? [|]].
Qed.

(** X8: in a table with pairwise different identifiers, [get_object]
    returns a recipe exactly when the list of the same request (same
    user, same query string) holds it and the [pk] of the URL reads as
    its identifier; so a detail route reaches what the list shows and
    nothing else, the list filters of the query string included. *)
Theorem get_object_reaches_what_the_list_shows self db r :
  NoDup (recipe_id <$> core_recipe db) →
  (RecipeActions.get_object self db = (RecipeActions.Done r, db)
   ↔ ∃ rs, RecipeViewSet.list_action (RecipeActions.request self) db = (Ok rs, db)
       ∧ r ∈ rs
       ∧ Py.parse_int (RecipeActions.pk self) = Some (recipe_id r)).
Proof.
  intros Hkey. rewrite get_object_unfold.
  destruct (RecipeViewSet.list_action (RecipeActions.request self) db)
    as [[rs|e] db1] eqn:Hlist; [|split; [done|by intros (? & ? & _)]].
  apply recipe_list_inv in Hlist as (-> & Hown & Hnd & _).
  assert (Hids : NoDup (recipe_id <$> rs)).
  { apply (NoDup_fmap_selection _ (core_recipe db)); [done| |done].
    intros x Hx. by apply Hown. }
  destruct (Py.parse_int (RecipeActions.pk self)) as [id|];
    [|split; [done|by intros (? & ? & _ & ?)]].
  destruct (filter_key_cases recipe_id id rs Hids)
    as [[-> Hnone]|(x & -> & Hx & Hfx)].
  - split; [done|]. intros (rs' & [= <-] & Hr & [= ->]). by destruct (Hnone r).
  - split.
    + intros [= ->]. exists rs. by rewrite Hfx.
    + intros (rs' & [= <-] & Hr & [= ->]). do 2 f_equal.
      by apply (NoDup_fmap_inj_on recipe_id rs).
Qed.

Lemma get_object_reaches_what_the_list_shows_witness :
  RecipeActions.get_object
    (RecipeActions.mk (sample_request [("tags", "8,9")]) (Some "retrieve") " 2")
    sample_db
  = (RecipeActions.Done (mkRecipe 2 100), sample_db)
  ↔ ∃ rs, RecipeViewSet.list_action (sample_request [("tags", "8,9")]) sample_db
          = (Ok rs, sample_db)
      ∧ mkRecipe 2 100 ∈ rs
      ∧ Py.parse_int " 2" = Some 2.
Proof.
  apply (get_object_reaches_what_the_list_shows
           (RecipeActions.mk (sample_request [("tags", "8,9")]) (Some "retrieve") " 2")
           sample_db (mkRecipe 2 100)).
  apply NoDup_ListNoDup. repeat constructor; simpl; intuition discriminate.
Defined.

(** ** Uploading an image *)

(** The only exception the list path raises is [ValueError]. *)
Lemma recipe_list_raises req db e db' :
  RecipeViewSet.list_action req db = (Raise e, db') → e = ValueError ∧ db' = db.
Proof.
  intros Hlist.
  destruct (recipe_list_cases req db) as [Hbad|(t & i & Ht & Hi)].
  - rewrite Hbad in Hlist. by simplify_eq.
  - destruct (recipe_list_ok req db t i Ht Hi) as (rs & Heq & _). congruence.
Qed.

(** Saving a row whose identifier is in the table overwrites in place:
    no row comes or goes, and the other tables are as they were. *)
Lemma save_row_keeps_ids r db :
  recipe_id r ∈ recipe_id <$> core_recipe db →
  ∃ db', save_row r db = (Ok r, db')
    ∧ recipe_id <$> core_recipe db' = recipe_id <$> core_recipe db
    ∧ core_tag db' = core_tag db
    ∧ core_ingredient db' = core_ingredient db
    ∧ core_recipe_tags db' = core_recipe_tags db
    ∧ core_recipe_ingredients db' = core_recipe_ingredients db.
Proof.
  intros Hin. unfold save_row, bind, select, commit, ret.
  rewrite decide_True by done.
  eexists. split; [reflexivity|]. cbn. split_and!; try done.
  clear Hin. induction (core_recipe db) as [|r0 rows IH]; [done|].
  rewrite !fmap_cons. f_equal; [by case_decide|done].
Qed.

Section upload.

Context {Payload Repr Errors : Type}.
Context (run_validation :
           RecipeActions.SerializerClass → Recipe → Payload
           → Errors + gmap string FieldValue).
Context (to_representation : RecipeActions.SerializerClass → Recipe → Repr).



End upload.


